(** * Truck-parking facility services: a shallow embedding of the route handlers

    The development follows the TypeScript sources of the map application:

    - [Facilities]: [app/api/facilities/route.ts], the viewport query over
      the enriched OSM snapshot ([loadAndTransformData], [GET]);
    - [Ndw]: the NDW route (DATEX II static table and dynamic status:
      [parseParkingTable], [parseParkingStatus], [GET]);
    - [EuParking]: [app/api/eu-parking/route.ts] ([fetchAndParseEUData]);
    - [Zenodo]: the Zenodo CSV route ([parseCSV]).

    JavaScript numbers are IEEE 754 binary64 values and are modelled by the
    primitive floats of Rocq, which are the same format.  Strings are byte
    strings holding UTF-8 text. *)

From Stdlib Require Import Floats ZArith List Bool String Ascii Lia.
From Stdlib Require Import DecimalString DecimalNat DecimalFacts.
Import ListNotations.

Local Open Scope string_scope.
Local Open Scope list_scope.

(** ** The JavaScript runtime: strings, numbers, arrays *)

Module JS.

(** *** Strings *)

Definition byte_is (n : nat) (c : ascii) : bool := Nat.eqb (nat_of_ascii c) n.

(** The one-byte members of WhiteSpace and LineTerminator:
    TAB, LF, VT, FF, CR and SP. *)
Definition is_ws1 (c : ascii) : bool :=
  let n := nat_of_ascii c in
  (Nat.leb 9 n && Nat.leb n 13) || Nat.eqb n 32.

(** Third byte of the three-byte white space characters starting E2 80:
    U+2000..U+200A, U+2028, U+2029 and U+202F. *)
Definition is_ws_e2_80 (c : ascii) : bool :=
  let n := nat_of_ascii c in
  (Nat.leb 128 n && Nat.leb n 138) || Nat.eqb n 168 || Nat.eqb n 169
  || Nat.eqb n 175.

(** [trimStart]: drops the leading white space and line terminators
    (U+00A0, U+1680, U+2000..U+200A, U+2028, U+2029, U+202F, U+205F,
    U+3000 and U+FEFF in their UTF-8 encodings besides the ASCII ones). *)
Fixpoint trimStart (s : string) : string :=
  match s with
  | EmptyString => EmptyString
  | String c r =>
      if is_ws1 c then trimStart r
      else
        match r with
        | String c2 r2 =>
            if byte_is 194 c && byte_is 160 c2 then trimStart r2
            else
              match r2 with
              | String c3 r3 =>
                  if (byte_is 225 c && byte_is 154 c2 && byte_is 128 c3)
                     || (byte_is 226 c && byte_is 128 c2 && is_ws_e2_80 c3)
                     || (byte_is 226 c && byte_is 129 c2 && byte_is 159 c3)
                     || (byte_is 227 c && byte_is 128 c2 && byte_is 128 c3)
                     || (byte_is 239 c && byte_is 187 c2 && byte_is 191 c3)
                  then trimStart r3
                  else s
              | EmptyString => s
              end
        | EmptyString => s
        end
  end.

Fixpoint rev_onto (s acc : string) : string :=
  match s with
  | EmptyString => acc
  | String c r => rev_onto r (String c acc)
  end.

Definition rev (s : string) : string := rev_onto s EmptyString.

(** The same scan on the reversed string, where the bytes of a multi-byte
    character come last byte first. *)
Fixpoint trimStart_rev (s : string) : string :=
  match s with
  | EmptyString => EmptyString
  | String c r =>
      if is_ws1 c then trimStart_rev r
      else
        match r with
        | String c2 r2 =>
            if byte_is 160 c && byte_is 194 c2 then trimStart_rev r2
            else
              match r2 with
              | String c3 r3 =>
                  if (byte_is 128 c && byte_is 154 c2 && byte_is 225 c3)
                     || (is_ws_e2_80 c && byte_is 128 c2 && byte_is 226 c3)
                     || (byte_is 159 c && byte_is 129 c2 && byte_is 226 c3)
                     || (byte_is 128 c && byte_is 128 c2 && byte_is 227 c3)
                     || (byte_is 191 c && byte_is 187 c2 && byte_is 239 c3)
                  then trimStart_rev r3
                  else s
              | EmptyString => s
              end
        | EmptyString => s
        end
  end.

Definition trimEnd (s : string) : string := rev (trimStart_rev (rev s)).

(** [String.prototype.trim] *)
Definition trim (s : string) : string := trimEnd (trimStart s).

(** [s.split(sep)] for a one-character separator: never the empty list. *)
Fixpoint split (sep : ascii) (s : string) : list string :=
  match s with
  | EmptyString => [EmptyString]
  | String c r =>
      if Ascii.eqb c sep then EmptyString :: split sep r
      else
        match split sep r with
        | [] => [String c EmptyString]
        | w :: ws => String c w :: ws
        end
  end.

Fixpoint startsWith (p s : string) : bool :=
  match p, s with
  | EmptyString, _ => true
  | String a p', String b s' => Ascii.eqb a b && startsWith p' s'
  | String _ _, EmptyString => false
  end.

(** [hay.includes(needle)] *)
Fixpoint includes (hay needle : string) : bool :=
  startsWith needle hay ||
  match hay with
  | EmptyString => false
  | String _ r => includes r needle
  end.

Definition quote : ascii := ascii_of_nat 34.

Definition dropLeadingQuote (s : string) : string :=
  match s with
  | String c r => if Ascii.eqb c quote then r else s
  | EmptyString => s
  end.

Definition dropTrailingQuote (s : string) : string :=
  match rev s with
  | String c r => if Ascii.eqb c quote then rev r else s
  | EmptyString => s
  end.

(** [s.replace(/^"|"$/g, '')]: the first alternative can only match at
    index 0 and the second only at the last index, and a match at index 0
    moves the scan to index 1, so a lone quote is removed once. *)
Definition stripQuotes (s : string) : string :=
  dropTrailingQuote (dropLeadingQuote s).

(** [toLowerCase] on text whose upper case letters are all ASCII; the
    handlers take the full case mapping as a parameter and the examples
    instantiate it with this one. *)
Definition lowerByte (c : ascii) : ascii :=
  let n := nat_of_ascii c in
  if Nat.leb 65 n && Nat.leb n 90 then ascii_of_nat (n + 32) else c.

Fixpoint asciiLowerCase (s : string) : string :=
  match s with
  | EmptyString => EmptyString
  | String c r => String (lowerByte c) (asciiLowerCase r)
  end.

(** A string is truthy when it is not empty. *)
Definition truthy_string (s : string) : bool :=
  match s with EmptyString => false | String _ _ => true end.

(** The decimal text of an array index, as a template literal prints it. *)
Definition string_of_nat (n : nat) : string :=
  NilZero.string_of_uint (Nat.to_uint n).

(** *** Numbers *)

Local Open Scope float_scope.

(** ToBoolean on a number: [0], [-0] and [NaN] are falsy. *)
Definition truthy_number (x : float) : bool :=
  negb (PrimFloat.is_zero x || PrimFloat.is_nan x).

(** [a >= b] and [a <= b] on numbers; both are false when an operand is
    [NaN]. *)
Definition ge (a b : float) : bool := (b <=? a).
Definition le (a b : float) : bool := (a <=? b).
(** [a > b] *)
Definition gt (a b : float) : bool := (b <? a).

Definition is_digit (c : ascii) : bool :=
  let n := nat_of_ascii c in Nat.leb 48 n && Nat.leb n 57.

Definition digit_val (c : ascii) : Z := Z.of_nat (nat_of_ascii c - 48).

(** Reads the longest run of decimal digits: its value, its length and the
    rest of the string. *)
Fixpoint digits (s : string) (acc : Z) (len : nat) : Z * nat * string :=
  match s with
  | String c r =>
      if is_digit c then digits r (10 * acc + digit_val c)%Z (S len)
      else (acc, len, s)
  | EmptyString => (acc, len, s)
  end.

Definition read_sign (s : string) : bool * string :=
  match s with
  | String c r =>
      if byte_is 45 c then (true, r)
      else if byte_is 43 c then (false, r)
      else (false, s)
  | EmptyString => (false, s)
  end.

(** The binary64 value nearest to [m * 10^e] (ties to even), [m >= 0]. *)
Definition decimal_to_float (neg : bool) (m e : Z) : float :=
  match m with
  | Zpos p =>
      let sf :=
        match e with
        | Zneg k =>
            SFdiv prec emax (S754_finite neg p 0)
                  (S754_finite false (Pos.pow 10 k) 0)
        | _ => binary_normalize prec emax
                 (if neg then Z.opp (m * 10 ^ e) else (m * 10 ^ e))%Z 0 false
        end in
      SF2Prim sf
  | _ => if neg then PrimFloat.neg_zero else PrimFloat.zero
  end.

(** The exponent part of a decimal literal, [0] when there is none (an [e]
    that no digit follows is not part of the literal). *)
Definition read_exponent (s : string) : Z :=
  match s with
  | String c r =>
      if byte_is 101 c || byte_is 69 c then
        let '(neg, r') := read_sign r in
        let '(v, len, _) := digits r' 0%Z 0%nat in
        match len with
        | O => 0%Z
        | S _ => if neg then Z.opp v else v
        end
      else 0%Z
  | EmptyString => 0%Z
  end.

(** [parseFloat(s)]: leading white space is skipped, then the longest
    prefix that is a StrDecimalLiteral is converted; [NaN] when there is
    none. *)
Definition parseFloat (s : string) : float :=
  let '(neg, r) := read_sign (trimStart s) in
  if startsWith "Infinity" r
  then (if neg then PrimFloat.neg_infinity else PrimFloat.infinity)
  else
    let '(iv, ilen, r1) := digits r 0%Z 0%nat in
    match r1 with
    | String c r2 =>
        if byte_is 46 c then
          let '(mv, flen, r3) := digits r2 iv 0%nat in
          match ilen, flen with
          | O, O => nan
          | _, _ =>
              decimal_to_float neg mv (read_exponent r3 - Z.of_nat flen)
          end
        else
          match ilen with
          | O => nan
          | S _ => decimal_to_float neg iv (read_exponent r1)
          end
    | EmptyString =>
        match ilen with
        | O => nan
        | S _ => decimal_to_float neg iv 0
        end
    end.

(** [parseInt(s, 10)]: leading white space, a sign and the longest run of
    decimal digits; [NaN] when there is no digit. *)
Definition parseInt (s : string) : float :=
  let '(neg, r) := read_sign (trimStart s) in
  let '(v, len, _) := digits r 0%Z 0%nat in
  match len with
  | O => nan
  | S _ => decimal_to_float neg v 0
  end.

End JS.

(** *** Arrays *)

Module JSArray.

Inductive integer_or_infinity : Type :=
| NegInf
| Fin (z : Z)
| PosInf.

(** ToIntegerOrInfinity: [NaN] and the zeros give 0, a finite number is
    truncated towards zero. *)
Definition toIntegerOrInfinity (x : float) : integer_or_infinity :=
  match Prim2SF x with
  | S754_nan => Fin 0
  | S754_zero _ => Fin 0
  | S754_infinity s => if s then NegInf else PosInf
  | S754_finite s m e =>
      let a := match e with
               | Zneg k => Z.shiftr (Zpos m) (Zpos k)
               | _ => Z.shiftl (Zpos m) e
               end in
      Fin (if s then Z.opp a else a)
  end.

(** The clamping of a relative index against the length, as done by
    [Array.prototype.slice] for both of its arguments. *)
Definition relativeIndex (len : nat) (x : float) : nat :=
  match toIntegerOrInfinity x with
  | NegInf => 0
  | PosInf => len
  | Fin z =>
      if (z <? 0)%Z then Z.to_nat (Z.max (Z.of_nat len + z) 0)
      else Z.to_nat (Z.min z (Z.of_nat len))
  end.

(** [l.slice(start, end)] *)
Definition slice {A : Type} (l : list A) (start end_ : float) : list A :=
  let k := relativeIndex (List.length l) start in
  let final := relativeIndex (List.length l) end_ in
  firstn (final - k) (skipn k l).

(** [l.findIndex(p)], with [None] for the result [-1]. *)
Fixpoint findIndex {A : Type} (p : A -> bool) (l : list A) : option nat :=
  match l with
  | [] => None
  | x :: r => if p x then Some 0 else option_map S (findIndex p r)
  end.

End JSArray.

(** ** Trees built by the XML parser

    [XMLParser.parse] returns objects, arrays, strings, numbers and
    booleans; it never puts [null] or [undefined] inside a tree.  A missing
    property reads as [undefined], which is [None] here. *)

Module Xml.

Set Warnings "-register-all".

Inductive value : Type :=
| Str (s : string)
| Num (n : float)
| Bool (b : bool)
| Arr (items : list value)
| Obj (fields : list (string * value)).

Definition truthy (v : value) : bool :=
  match v with
  | Str s => JS.truthy_string s
  | Num n => JS.truthy_number n
  | Bool b => b
  | Arr _ | Obj _ => true
  end.

Definition truthy_opt (o : option value) : bool :=
  match o with
  | Some v => truthy v
  | None => false
  end.

Fixpoint lookup (k : string) (fields : list (string * value)) : option value :=
  match fields with
  | [] => None
  | (k', v) :: r => if String.eqb k k' then Some v else lookup k r
  end.

(** [v[k]] for the property names the handlers read.  None of them is an
    index, [length] or a method of a string, number or boolean; on an array
    the only inherited one is [values] (a function), which the code reads
    only to take its [value] property, [undefined] in either case. *)
Definition get (k : string) (v : value) : option value :=
  match v with
  | Obj fields => lookup k fields
  | _ => None
  end.

(** [o?.[k]] *)
Definition oget (k : string) (o : option value) : option value :=
  match o with
  | Some v => get k v
  | None => None
  end.

(** [a || b] *)
Definition or_else (a b : option value) : option value :=
  if truthy_opt a then a else b.

(** [a || d] with a default that is always defined *)
Definition or_default (a : option value) (d : value) : value :=
  match a with
  | Some v => if truthy v then v else d
  | None => d
  end.

(** [n || 0] on the result of [extractNumber] *)
Definition number_or_zero (n : option float) : float :=
  match n with
  | Some x => if JS.truthy_number x then x else PrimFloat.zero
  | None => PrimFloat.zero
  end.

(** [v.value?.[0]?.['#text']]: the first item of an array, the property
    named 0 of an object; a character of a string has no property. *)
Definition value0_text (v : value) : option value :=
  match get "value" v with
  | Some (Arr (x :: _)) => get "#text" x
  | Some (Obj fields) => oget "#text" (lookup "0" fields)
  | _ => None
  end.

(** [parseFloat(v)] converts its argument with ToString first.  A number
    prints to the shortest decimal text that reads back as the same number;
    an array prints its items separated by commas, and no comma continues
    a decimal literal, so only the first item counts; [true], [false] and
    [[object Object]] are no literals. *)
Fixpoint parseFloat (v : value) : float :=
  match v with
  | Str s => JS.parseFloat s
  | Num n => if PrimFloat.is_zero n then PrimFloat.zero else n
  | Bool _ => PrimFloat.nan
  | Arr items =>
      match items with
      | x :: _ => parseFloat x
      | [] => PrimFloat.nan
      end
  | Obj _ => PrimFloat.nan
  end.

(** SameValueZero, the key equality of [Map] and of [includes].  Two
    objects or arrays met in parsed trees are never the same reference. *)
Definition sameValueZero (a b : value) : bool :=
  match a, b with
  | Str s, Str t => String.eqb s t
  | Num x, Num y =>
      PrimFloat.Leibniz.eqb x y || (PrimFloat.is_zero x && PrimFloat.is_zero y)
  | Bool x, Bool y => Bool.eqb x y
  | _, _ => false
  end.

(** [v === 'text'] *)
Definition is_str (text : string) (v : option value) : bool :=
  match v with
  | Some (Str s) => String.eqb s text
  | _ => false
  end.

End Xml.

(** ** The NDW route: DATEX II parking table and parking status *)

Module Ndw.

Import Xml.

(** *** Helpers of the route *)

(** [extractText]: the node itself when it is a string, else its text
    node, else the text of its first value. *)
Definition extractText (node : option value) : option value :=
  match node with
  | None => None
  | Some v =>
      if negb (truthy v) then None
      else
        match v with
        | Str _ => Some v
        | _ =>
            if truthy_opt (get "#text" v) then get "#text" v
            else if truthy_opt (value0_text v) then value0_text v
            else None
        end
  end.

(** [extractNumber] *)
Definition extractNumber (node : option value) : option float :=
  match node with
  | None => None
  | Some (Num n) => Some n
  | Some _ =>
      match extractText node with
      | Some text => if truthy text then Some (Xml.parseFloat text) else None
      | None => None
      end
  end.

(** [ensureArray] *)
Definition ensureArray (item : option value) : list value :=
  match item with
  | None => []
  | Some v =>
      if negb (truthy v) then []
      else
        match v with
        | Arr items => items
        | _ => [v]
        end
  end.

(** *** The facility record ([lib/ndw-types.ts]) *)

Record Location : Type := mkLocation {
  latitude : float;
  longitude : float
}.

Record Address : Type := mkAddress {
  street : option value;
  houseNumber : option value;
  postalCode : option value;
  city : option value
}.

(** An optional field that is [undefined] is [None]. *)
Record Capacity : Type := mkCapacity {
  totalSpaces : float;
  lorrySpaces : option float;
  refrigeratedSpaces : option float;
  heavyHaulSpaces : option float
}.

Record Operator : Type := mkOperator {
  operator_name : option value;
  email : option value;
  phone : option value
}.

Record Pricing : Type := mkPricing {
  rate : option float;
  currency : option value;
  website : option value
}.

Record Security : Type := mkSecurity {
  cctv : bool;
  fencing : bool;
  lighting : bool;
  guards24h : bool;
  patrols : bool;
  certified : bool;
  certificationLevel : option float
}.

Record Access : Type := mkAccess {
  motorway : option value;
  junction : option value;
  distance : option float;
  barrierType : option value
}.

Record NDWParkingFacility : Type := mkFacility {
  id : value;
  version : value;
  name : value;
  location : Location;
  address : option Address;
  capacity : Capacity;
  operator : option Operator;
  pricing : option Pricing;
  facilities : option (list value);
  security : option Security;
  access : option Access
}.

(** *** [parseParkingTable] *)

(** The four counters of the capacity loop:
    [totalSpaces], [lorrySpaces], [refrigeratedSpaces], [heavyHaulSpaces]. *)
Record Counters : Type := mkCounters {
  c_total : float;
  c_lorry : float;
  c_refrigerated : float;
  c_heavyHaul : float
}.

Definition counters0 : Counters :=
  mkCounters PrimFloat.zero PrimFloat.zero PrimFloat.zero PrimFloat.zero.

Definition groupSpaces (group : value) : float :=
  number_or_zero (extractNumber (get "parkingNumberOfSpaces" group)).

Definition groupVehicleType (group : value) : option value :=
  extractText
    (oget "vehicleType"
       (oget "vehicleCharacteristics"
          (oget "parkingUsage" (get "parkingSpaceBasics" group)))).

(** The body of [groupsOfSpaces.forEach]. *)
Definition countGroup (c : Counters) (group : value) : Counters :=
  let spaces := groupSpaces group in
  let total := PrimFloat.add (c_total c) spaces in
  let vehicleType := groupVehicleType group in
  if is_str "lorry" vehicleType then
    mkCounters total (PrimFloat.add (c_lorry c) spaces)
               (c_refrigerated c) (c_heavyHaul c)
  else if is_str "refrigeratedGoods" vehicleType then
    mkCounters total (c_lorry c)
               (PrimFloat.add (c_refrigerated c) spaces) (c_heavyHaul c)
  else if is_str "heavyHaul" vehicleType then
    mkCounters total (c_lorry c) (c_refrigerated c)
               (PrimFloat.add (c_heavyHaul c) spaces)
  else
    mkCounters total (c_lorry c) (c_refrigerated c) (c_heavyHaul c).

Definition countGroups (groups : list value) : Counters :=
  fold_left countGroup groups counters0.

(** [n > 0 ? n : undefined] *)
Definition positive_or_undefined (n : float) : option float :=
  if JS.gt n PrimFloat.zero then Some n else None.

Definition pointCoordinates (record : value) : option value :=
  let parkingLocation := get "parkingLocation" record in
  or_else
    (oget "pointCoordinates" (oget "pointByCoordinates" parkingLocation))
    (oget "pointCoordinates"
       (oget "pointByCoordinates"
          (oget "locationForDisplay" parkingLocation))).

Definition non_empty {A : Type} (l : list A) : option (list A) :=
  match l with
  | [] => None
  | _ :: _ => Some l
  end.

Fixpoint filter_truthy (l : list (option value)) : list value :=
  match l with
  | [] => []
  | Some v :: r => if truthy v then v :: filter_truthy r else filter_truthy r
  | None :: r => filter_truthy r
  end.

Definition defined (o : option value) : bool :=
  match o with Some _ => true | None => false end.

(** The function mapped over the parking records. *)
Definition parseRecord (record : value) : NDWParkingFacility :=
  let id := or_default (get "@_id" record) (Str EmptyString) in
  let version := or_default (get "@_version" record) (Num PrimFloat.one) in
  let nameValue := oget "value" (oget "values" (get "parkingName" record)) in
  let name := or_default (extractText nameValue) id in
  let coords := pointCoordinates record in
  let latitude := number_or_zero (extractNumber (oget "latitude" coords)) in
  let longitude := number_or_zero (extractNumber (oget "longitude" coords)) in
  let address := oget "parkingAddress" (get "parkingLocation" record) in
  let addressData :=
    if truthy_opt address then
      Some (mkAddress (extractText (oget "addressLine" address))
                      (extractText (oget "houseNumber" address))
                      (extractText (oget "postcode" address))
                      (extractText (oget "city" address)))
    else None in
  let c := countGroups (ensureArray (get "groupOfParkingSpaces" record)) in
  let operator := get "operator" record in
  let operatorData :=
    if truthy_opt operator then
      Some (mkOperator
              (extractText (oget "contactOrganisationName" operator))
              (extractText (oget "contactPersonEmailAddress" operator))
              (extractText (oget "contactPersonPhoneNumber" operator)))
    else None in
  let tariffsAndPayment := get "tariffsAndPayment" record in
  let chargeBands := ensureArray (oget "chargeBand" tariffsAndPayment) in
  let firstBand := hd_error chargeBands in
  let pricingData :=
    if truthy_opt tariffsAndPayment then
      Some (mkPricing
              (if truthy_opt firstBand
               then extractNumber (oget "charge" (oget "charge" firstBand))
               else None)
              (if truthy_opt firstBand
               then extractText (oget "chargeCurrency" firstBand)
               else None)
              (extractText (oget "urlLinkAddress" tariffsAndPayment)))
    else None in
  let equipmentOrServices :=
    ensureArray (get "parkingEquipmentOrServiceFacility" record) in
  let facilities :=
    filter_truthy
      (map (fun item =>
              extractText (get "equipmentOrServiceFacilityType" item))
           equipmentOrServices) in
  let securityData := get "parkingSecurity" record in
  let security :=
    if truthy_opt securityData then
      Some (mkSecurity
              (is_str "true" (extractText (oget "cctv" securityData)))
              (is_str "true" (extractText (oget "fencing" securityData)))
              (is_str "true" (extractText (oget "lighting" securityData)))
              (is_str "true"
                 (extractText (oget "securityGuards24H" securityData)))
              (is_str "true"
                 (extractText (oget "securityPatrols" securityData)))
              (defined (extractText (oget "certificationLevel" securityData)))
              (extractNumber (oget "certificationLevel" securityData)))
    else None in
  let firstAccess := hd_error (ensureArray (get "parkingAccess" record)) in
  let accessData :=
    if truthy_opt firstAccess then
      Some (mkAccess
              (extractText (oget "roadIdentifier" firstAccess))
              (extractText (oget "junctionName" firstAccess))
              (extractNumber
                 (oget "distanceFromParkingToJunction" firstAccess))
              (extractText (oget "barrierType" firstAccess)))
    else None in
  mkFacility id version name (mkLocation latitude longitude) addressData
    (mkCapacity (c_total c)
                (positive_or_undefined (c_lorry c))
                (positive_or_undefined (c_refrigerated c))
                (positive_or_undefined (c_heavyHaul c)))
    operatorData pricingData (non_empty facilities) security accessData.

(** The path from the document to the parking table, shared by
    [parseParkingTable] and [extractTableVersion]. *)
Definition parkingTable (data : value) : option value :=
  let model :=
    or_else (get "d2LogicalModel" data) (get "d2:d2LogicalModel" data) in
  oget "parkingTable"
    (oget "parkingTablePublication"
       (oget "genericPublicationExtension"
          (oget "payloadPublication" model))).

Definition parkingRecords (data : value) : list value :=
  ensureArray (oget "parkingRecord" (parkingTable data)).

(** No property read in the function can throw on a parsed tree, so the
    [catch] branch is never taken. *)
Definition parseParkingTable (data : value) : list NDWParkingFacility :=
  map parseRecord (parkingRecords data).

Definition extractTableVersion (data : value) : option value :=
  oget "@_version" (parkingTable data).

(** *** [parseParkingStatus] *)

Record GroupStatus : Type := mkGroupStatus {
  index : value;
  g_vacantSpaces : float;
  g_occupiedSpaces : float;
  g_occupancy : float
}.

Record NDWParkingStatus : Type := mkStatus {
  st_id : value;
  vacantSpaces : float;
  occupiedSpaces : float;
  occupancy : float;
  status : value;
  timestamp : value;
  groupedStatus : option (list GroupStatus)
}.

(** [Map<string, NDWParkingStatus>]: the entries in insertion order. *)
Definition StatusMap : Type := list (value * NDWParkingStatus).

(** [Map.prototype.get] *)
Fixpoint map_get (m : StatusMap) (k : value) : option NDWParkingStatus :=
  match m with
  | [] => None
  | (k', v) :: r => if sameValueZero k' k then Some v else map_get r k
  end.

Fixpoint map_put (m : StatusMap) (k : value) (v : NDWParkingStatus)
  : StatusMap :=
  match m with
  | [] => [(k, v)]
  | (k', v') :: r =>
      if sameValueZero k' k then (k', v) :: r else (k', v') :: map_put r k v
  end.

(** [Map.prototype.set]: the value of an existing key is replaced in
    place, a new key is appended; the key [-0] is stored as [+0]. *)
Definition map_set (m : StatusMap) (k : value) (v : NDWParkingStatus)
  : StatusMap :=
  let k0 := match k with
            | Num x => if PrimFloat.is_zero x then Num PrimFloat.zero else k
            | _ => k
            end in
  map_put m k0 v.

(** [o?.['ns2:k'] || o?.k] *)
Definition ns2 (k : string) (o : option value) : option value :=
  or_else (oget ("ns2:" ++ k) o) (oget k o).

Definition statusRecords (data : value) : list value :=
  let payload := or_else (get "ns3:payload" data) (get "payload" data) in
  ensureArray (ns2 "parkingRecordStatus" payload).

(** [reference?.['@_id']] of a status record *)
Definition referenceId (statusRecord : value) : option value :=
  oget "@_id" (ns2 "parkingRecordReference" (Some statusRecord)).

Definition parseGroup (group : value) : GroupStatus :=
  let groupOccupancy := ns2 "groupOfParkingSpacesStatus" (Some group) in
  mkGroupStatus
    (or_default (get "@_groupIndex" group) (Num PrimFloat.zero))
    (number_or_zero
       (extractNumber (ns2 "parkingNumberOfVacantSpaces" groupOccupancy)))
    (number_or_zero
       (extractNumber (ns2 "parkingNumberOfOccupiedSpaces" groupOccupancy)))
    (number_or_zero (extractNumber (ns2 "parkingOccupancy" groupOccupancy))).

(** The status object stored for a record whose reference id is [id];
    [now] is the text of [new Date().toISOString()] at that moment.  Every
    [index] is defined, so the final [filter] keeps all groups. *)
Definition parseStatusRecord (now : string) (id statusRecord : value)
  : NDWParkingStatus :=
  let occupancyData := ns2 "parkingOccupancy" (Some statusRecord) in
  let groupedStatus :=
    map parseGroup
      (ensureArray (ns2 "groupOfParkingSpacesStatus" (Some statusRecord))) in
  mkStatus id
    (number_or_zero
       (extractNumber (ns2 "parkingNumberOfVacantSpaces" occupancyData)))
    (number_or_zero
       (extractNumber (ns2 "parkingNumberOfOccupiedSpaces" occupancyData)))
    (number_or_zero (extractNumber (ns2 "parkingOccupancy" occupancyData)))
    (or_default (extractText (ns2 "parkingSiteStatus" (Some statusRecord)))
                (Str "unknown"))
    (or_default
       (extractText (ns2 "parkingStatusOriginTime" (Some statusRecord)))
       (Str now))
    (non_empty groupedStatus).

(** The body of [statusRecords.forEach]: a record without a truthy
    reference id returns at once. *)
Definition statusStep (now : string) (statusMap : StatusMap)
  (statusRecord : value) : StatusMap :=
  match referenceId statusRecord with
  | Some id =>
      if truthy id
      then map_set statusMap id (parseStatusRecord now id statusRecord)
      else statusMap
  | None => statusMap
  end.

(** [statusRecords.forEach]; [clock i] is the time read while the record
    of index [i] is handled. *)
Fixpoint forEachStatus (clock : nat -> string) (i : nat)
  (records : list value) (statusMap : StatusMap) : StatusMap :=
  match records with
  | [] => statusMap
  | statusRecord :: rest =>
      forEachStatus clock (S i) rest
        (statusStep (clock i) statusMap statusRecord)
  end.

(** No property read in the function can throw on a parsed tree. *)
Definition parseParkingStatus (clock : nat -> string) (data : value)
  : StatusMap :=
  forEachStatus clock 0 (statusRecords data) [].

(** *** [GET] *)

Record NDWEnrichedFacility : Type := mkEnriched {
  facility : NDWParkingFacility;
  liveStatus : option NDWParkingStatus
}.

Record NDWDataResponse : Type := mkResponse {
  r_facilities : list NDWEnrichedFacility;
  lastUpdated : string;
  tableVersion : value;
  totalFacilities : nat
}.

Inductive Response : Type :=
| Json (body : NDWDataResponse)
| Error (message : string) (code : nat).

(** The merge of the facilities with their live status. *)
Definition enrich (statusMap : StatusMap) (facilities : list NDWParkingFacility)
  : list NDWEnrichedFacility :=
  map (fun f => mkEnriched f (map_get statusMap (id f))) facilities.

(** One request.  [tableData] and [statusData] are the two parsed
    documents, [None] when the fetch failed or was not [ok]; [clock] is
    read by [parseParkingStatus] and [now] for [lastUpdated].  The module
    has no variable that outlives a request. *)
Definition GET (clock : nat -> string) (now : string)
  (tableData statusData : option value) : Response :=
  match tableData, statusData with
  | Some table, Some statusDoc =>
      let facilities := parseParkingTable table in
      let statusMap := parseParkingStatus clock statusDoc in
      let enrichedFacilities := enrich statusMap facilities in
      Json (mkResponse enrichedFacilities now
              (or_default (extractTableVersion table) (Num PrimFloat.zero))
              (List.length enrichedFacilities))
  | _, _ => Error "Failed to fetch truck parking data" 500
  end.

End Ndw.

(** ** The EU open data route ([app/api/eu-parking/route.ts]) *)

Module EuParking.

Import Xml.

(** The helpers [extractText], [extractNumber] and [ensureArray] of this
    file are the same text as those of the NDW route. *)
Definition extractText := Ndw.extractText.
Definition extractNumber := Ndw.extractNumber.
Definition ensureArray := Ndw.ensureArray.

Record Source : Type := mkSource {
  country : string;
  source_name : string;
  url : string
}.

Record Location : Type := mkLocation {
  latitude : float;
  longitude : float
}.

Record Capacity : Type := mkCapacity {
  totalSpaces : float;
  hgvSpaces : option float
}.

Record Security : Type := mkSecurity {
  certified : bool;
  certificationLevel : option value
}.

Record EUParkingFacility : Type := mkFacility {
  id : string;
  f_country : string;
  name : value;
  location : Location;
  capacity : option Capacity;
  security : option Security;
  facilities : option (list value);
  source : string
}.

Definition countGroup (c : float * float) (group : value) : float * float :=
  let spaces :=
    number_or_zero (extractNumber (get "parkingNumberOfSpaces" group)) in
  let vehicleType := Ndw.groupVehicleType group in
  (PrimFloat.add (fst c) spaces,
   if is_str "lorry" vehicleType || is_str "hgv" vehicleType
   then PrimFloat.add (snd c) spaces else snd c).

Section WithToString.

(** ToString of a parsed value, used by the template literal of [id]. *)
Variable toString : value -> string.

Definition parseRecord (src : Source) (record : value) : EUParkingFacility :=
  let id := or_default (get "@_id" record) (Str EmptyString) in
  let nameValue := oget "value" (oget "values" (get "parkingName" record)) in
  let name := or_default (extractText nameValue) id in
  let coords := Ndw.pointCoordinates record in
  let latitude := number_or_zero (extractNumber (oget "latitude" coords)) in
  let longitude := number_or_zero (extractNumber (oget "longitude" coords)) in
  let c :=
    fold_left countGroup (ensureArray (get "groupOfParkingSpaces" record))
      (PrimFloat.zero, PrimFloat.zero) in
  let securityData := get "parkingSecurity" record in
  let security :=
    if truthy_opt securityData then
      Some (mkSecurity
              (Ndw.defined
                 (extractText (oget "certificationLevel" securityData)))
              (extractText (oget "certificationLevel" securityData)))
    else None in
  let facilities :=
    Ndw.filter_truthy
      (map (fun item =>
              extractText (get "equipmentOrServiceFacilityType" item))
           (ensureArray (get "parkingEquipmentOrServiceFacility" record))) in
  mkFacility (country src ++ "-" ++ toString id)%string (country src) name
    (mkLocation latitude longitude)
    (if JS.gt (fst c) PrimFloat.zero
     then Some (mkCapacity (fst c) (Ndw.positive_or_undefined (snd c)))
     else None)
    security (Ndw.non_empty facilities) (source_name src).

(** [fetchAndParseEUData]; [response] is the parsed document, [None] when
    the fetch failed or was not [ok], in which case the result is empty. *)
Definition fetchAndParseEUData (src : Source) (response : option value)
  : list EUParkingFacility :=
  match response with
  | Some data => map (parseRecord src) (Ndw.parkingRecords data)
  | None => []
  end.

End WithToString.

End EuParking.

(** ** The Zenodo route: the pan-European CSV *)

Module Zenodo.

Record Location : Type := mkLocation {
  latitude : float;
  longitude : float
}.

Record ZenodoFacility : Type := mkFacility {
  id : string;
  name : string;
  category : string;
  location : Location;
  country : string;
  area : option float;
  source : string
}.

(** The result of a call: a value, or the [TypeError] raised by a method
    call on [undefined]. *)
Inductive outcome (A : Type) : Type :=
| Returned (a : A)
| TypeError.

Arguments Returned {A} a.
Arguments TypeError {A}.

Definition bind {A B : Type} (x : outcome A) (k : A -> outcome B)
  : outcome B :=
  match x with
  | Returned a => k a
  | TypeError => TypeError
  end.

Notation "'let*' x ':=' c 'in' k" := (bind c (fun x => k))
  (at level 10, x name, c at level 100, k at level 200).

Definition semicolon : ascii := ascii_of_nat 59.
Definition newline : ascii := ascii_of_nat 10.

(** The inner loop over the characters of a line, with its three
    variables, followed by the push of the last field. *)
Fixpoint splitFields (line currentField : string) (inQuotes : bool)
  (fields : list string) : list string :=
  match line with
  | EmptyString => fields ++ [JS.trim currentField]
  | String char rest =>
      if Ascii.eqb char JS.quote then
        splitFields rest currentField (negb inQuotes) fields
      else if Ascii.eqb char semicolon && negb inQuotes then
        splitFields rest EmptyString inQuotes
          (fields ++ [JS.trim currentField])
      else
        splitFields rest (currentField ++ String char EmptyString) inQuotes
          fields
  end.

(** [fields[k].replace(/^"|"$/g, '')], which throws when the row has no
    field [k]. *)
Definition fieldText (fields : list string) (k : nat) : outcome string :=
  match nth_error fields k with
  | Some f => Returned (JS.stripQuotes f)
  | None => TypeError
  end.

(** [parseFloat(fields[k])]; [undefined] prints as a text that is no
    number. *)
Definition fieldNumber (fields : list string) (k : nat) : float :=
  match nth_error fields k with
  | Some f => JS.parseFloat f
  | None => PrimFloat.nan
  end.

(** The column indices; [None] stands for [-1]. *)
Record Columns : Type := mkColumns {
  latIndex : option nat;
  lonIndex : option nat;
  countryIndex : option nat;
  categoryIndex : option nat;
  areaIndex : option nat;
  nameIndex : option nat
}.

Section WithCaseMapping.

(** [String.prototype.toLowerCase], the case mapping of Unicode. *)
Variable toLowerCase : string -> string.

Definition mentions (word : string) (h : string) : bool :=
  JS.includes (toLowerCase h) word.

Definition parseHeader (line : string) : Columns :=
  let headers := map (fun h => JS.stripQuotes (JS.trim h))
                     (JS.split semicolon line) in
  mkColumns
    (JSArray.findIndex (mentions "lat") headers)
    (JSArray.findIndex (mentions "lon") headers)
    (JSArray.findIndex (mentions "country") headers)
    (JSArray.findIndex
       (fun h => mentions "category" h || mentions "type" h) headers)
    (JSArray.findIndex (fun h => mentions "area" h || mentions "size" h)
       headers)
    (JSArray.findIndex (fun h => mentions "name" h || mentions "id" h)
       headers).

End WithCaseMapping.

(** [lat === null || lon === null || isNaN(lat) || isNaN(lon)] *)
Definition invalidCoordinates (lat lon : option float) : bool :=
  match lat, lon with
  | Some a, Some b => PrimFloat.is_nan a || PrimFloat.is_nan b
  | _, _ => true
  end.

Definition rowCoordinates (cols : Columns) (fields : list string)
  : option float * option float :=
  (option_map (fieldNumber fields) (latIndex cols),
   option_map (fieldNumber fields) (lonIndex cols)).

(** One turn of the loop over the data rows, [i] being the index of the
    line: [Returned None] is a [continue], [Returned (Some f)] a push. *)
Definition parseRow (cols : Columns) (i : nat) (rawLine : string)
  : outcome (option ZenodoFacility) :=
  let line := JS.trim rawLine in
  if negb (JS.truthy_string line) then Returned None
  else
    let fields := splitFields line EmptyString false [] in
    let '(lat, lon) := rowCoordinates cols fields in
    match lat, lon with
    | Some a, Some b =>
        if PrimFloat.is_nan a || PrimFloat.is_nan b then Returned None
        else
          let* country :=
            match countryIndex cols with
            | Some k => fieldText fields k
            | None => Returned "Unknown"
            end in
          let* category :=
            match categoryIndex cols with
            | Some k => fieldText fields k
            | None => Returned "parking"
            end in
          let area := option_map (fieldNumber fields) (areaIndex cols) in
          let* name :=
            match nameIndex cols with
            | Some k => fieldText fields k
            | None => Returned (country ++ "-" ++ JS.string_of_nat i)%string
            end in
          Returned
            (Some
               (mkFacility
                  ("zenodo-" ++ country ++ "-" ++ JS.string_of_nat i)%string
                  (if JS.truthy_string name then name
                   else ("Parking " ++ JS.string_of_nat i)%string)
                  category
                  (mkLocation a b)
                  country
                  (match area with
                   | Some x => if JS.truthy_number x then Some x else None
                   | None => None
                   end)
                  "Zenodo (Fraunhofer ISI)"))
    | _, _ => Returned None
    end.

(** The loop over the data rows from index [i] on. *)
Fixpoint parseRows (cols : Columns) (i : nat) (lines : list string)
  (facilities : list ZenodoFacility) : outcome (list ZenodoFacility) :=
  match lines with
  | [] => Returned facilities
  | line :: rest =>
      let* r := parseRow cols i line in
      match r with
      | Some f => parseRows cols (S i) rest (facilities ++ [f])
      | None => parseRows cols (S i) rest facilities
      end
  end.

(** [parseCSV] *)
Definition parseCSV (toLowerCase : string -> string) (csvText : string)
  : outcome (list ZenodoFacility) :=
  match JS.split newline (JS.trim csvText) with
  | [] => Returned []
  | header :: rows => parseRows (parseHeader toLowerCase header) 1 rows []
  end.

End Zenodo.

(** ** The facilities route: the viewport query over the OSM snapshot *)

Module Facilities.

(** *** [EnrichedFeature] *)

(** A JSON value at a place where the interface declares a string.  The
    interface is not checked when the file is loaded, so that the value
    may be a string, [null] or missing, or any other value (a number, a
    boolean, an array, an object). *)
Inductive text : Type :=
| Text (s : string)
| Absent
| Other.

(** Of the fields of [location] the handler reads [municipality],
    [province] and [highway]. *)
Record FeatureLocation : Type := mkFeatureLocation {
  highway_type : option string;
  municipality : text;
  province : text;
  road : option string;
  postcode : option string;
  highway : text
}.

Record Classification : Type := mkClassification {
  is_truck_parking : bool;
  is_rest_area : bool;
  is_service_area : bool;
  confidence : float
}.

(** The fields have the types that the interface declares, except the
    texts that the search reads ([name] and those of [location]), which
    are taken as the file has them.  [tags], [geometry.coordinates] and
    [capacity] are untyped JSON that the handler copies and never reads. *)
Record EnrichedFeature : Type := mkFeature {
  id : string;
  osm_id : float;
  osm_type : string;
  data_source : string;
  last_updated : string;
  tags : Xml.value;
  name : text;
  geometry_type : string;
  geometry_coordinates : Xml.value;
  latitude : float;
  longitude : float;
  location : option FeatureLocation;
  hgv : option string;
  parking_type : option string;
  confidence_score : float;
  classification : Classification;
  capacity : option Xml.value;
  facility_type : option string
}.

(** *** [loadAndTransformData] *)

(** The assignment chain that derives [facility_type]. *)
Definition deriveFacilityType (c : Classification) : string :=
  let facility_type := "rest_area" in
  if is_truck_parking c then "truck_parking"
  else if is_service_area c then "service_area"
  else if is_rest_area c then "rest_area"
  else facility_type.

(** [{ ...feature, facility_type }] *)
Definition transform (feature : EnrichedFeature) : EnrichedFeature :=
  mkFeature (id feature) (osm_id feature) (osm_type feature)
    (data_source feature) (last_updated feature) (tags feature)
    (name feature) (geometry_type feature) (geometry_coordinates feature)
    (latitude feature) (longitude feature) (location feature) (hgv feature)
    (parking_type feature) (confidence_score feature)
    (classification feature) (capacity feature)
    (Some (deriveFacilityType (classification feature))).

(** The module variable [cachedData]: [None] is [null]. *)
Definition Cache : Type := option (list EnrichedFeature).

(** The result of loading, with the cache afterwards.  [file] is the
    parsed content of [public/truck_parking_enriched.json], [None] when
    reading it, parsing it or mapping over it throws; the first component
    is [None] when the call throws.  An array, even an empty one, is
    truthy. *)
Definition loadAndTransformData (cachedData : Cache)
  (file : option (list EnrichedFeature))
  : option (list EnrichedFeature) * Cache :=
  match cachedData with
  | Some data => (Some data, cachedData)
  | None =>
      match file with
      | Some rawData =>
          let data := map transform rawData in (Some data, Some data)
      | None => (None, None)
      end
  end.

(** *** [GET] *)

(** The five query parameters as [searchParams.get] returns them, [None]
    being [null]. *)
Record Request : Type := mkRequest {
  q_bounds : option string;
  q_types : option string;
  q_search : option string;
  q_limit : option string;
  q_offset : option string
}.

Record Stats : Type := mkStats {
  s_total : nat;
  s_truck_parking : nat;
  s_service_area : nat;
  s_rest_area : nat
}.

Record Body : Type := mkBody {
  facilities : list EnrichedFeature;
  stats : Stats;
  total : nat;
  offset : float;
  limit : float
}.

Inductive Response : Type :=
| Json (body : Body)
| Error (message : string) (code : nat).

Definition comma : ascii := ascii_of_nat 44.

(** [bounds.split(',').map(parseFloat)]; a missing element of the
    destructuring is [undefined], which compares as [NaN]. *)
Definition parseBounds (bounds : string) : float * float * float * float :=
  let parts := map JS.parseFloat (JS.split comma bounds) in
  (nth 0 parts PrimFloat.nan, nth 1 parts PrimFloat.nan,
   nth 2 parts PrimFloat.nan, nth 3 parts PrimFloat.nan).

Definition inBounds (b : float * float * float * float)
  (feature : EnrichedFeature) : bool :=
  let '(minLat, minLng, maxLat, maxLng) := b in
  JS.ge (latitude feature) minLat && JS.le (latitude feature) maxLat &&
  JS.ge (longitude feature) minLng && JS.le (longitude feature) maxLng.

(** [searchParams.get('types')?.split(',') || [...]]; the array that
    [split] returns is always truthy. *)
Definition typesOf (types : option string) : list string :=
  match types with
  | Some t => JS.split comma t
  | None => ["truck_parking"; "service_area"; "rest_area"]
  end.

(** [feature.facility_type || 'rest_area'] *)
Definition typeOrDefault (feature : EnrichedFeature) : string :=
  match facility_type feature with
  | Some t => if JS.truthy_string t then t else "rest_area"
  | None => "rest_area"
  end.

(** [types.includes(...)] *)
Definition hasType (types : list string) (feature : EnrichedFeature) : bool :=
  existsb (String.eqb (typeOrDefault feature)) types.

Definition isType (t : string) (feature : EnrichedFeature) : bool :=
  match facility_type feature with
  | Some t' => String.eqb t' t
  | None => false
  end.

(** [a || d] on strings *)
Definition string_or (a : option string) (d : string) : string :=
  match a with
  | Some s => if JS.truthy_string s then s else d
  | None => d
  end.

Section WithCaseMapping.

(** [String.prototype.toLowerCase], the case mapping of Unicode. *)
Variable toLowerCase : string -> string.

(** [t.toLowerCase().includes(search)] on the name: the call of a method
    on a value that is no string throws a [TypeError], which is [None]
    here. *)
Definition nameIncludes (search : string) (t : text) : option bool :=
  match t with
  | Text s => Some (JS.includes (toLowerCase s) search)
  | Absent | Other => None
  end.

(** [t?.toLowerCase().includes(search)]: [undefined], which is falsy,
    when [t] is missing, and a throw when [t] is neither missing nor a
    string. *)
Definition fieldIncludes (search : string) (t : text) : option bool :=
  match t with
  | Text s => Some (JS.includes (toLowerCase s) search)
  | Absent => Some false
  | Other => None
  end.

(** [feature.location?.f] *)
Definition locationField (f : FeatureLocation -> text)
  (feature : EnrichedFeature) : text :=
  match location feature with
  | Some l => f l
  | None => Absent
  end.

(** [a || b]: [b] is evaluated only when [a] is falsy. *)
Definition orElse (a b : option bool) : option bool :=
  match a with
  | Some true => Some true
  | Some false => b
  | None => None
  end.

(** The callback of the search filter on one feature: its truthiness, or
    [None] when it throws. *)
Definition searchCallback (search : string) (feature : EnrichedFeature)
  : option bool :=
  orElse (nameIncludes search (name feature))
    (orElse (fieldIncludes search (locationField municipality feature))
       (orElse (fieldIncludes search (locationField province feature))
          (fieldIncludes search (locationField highway feature)))).

(** The callback keeps the feature. *)
Definition matchesSearch (search : string) (feature : EnrichedFeature)
  : bool :=
  match searchCallback search feature with
  | Some b => b
  | None => false
  end.

(** The callback throws on the feature. *)
Definition searchThrows (search : string) (feature : EnrichedFeature)
  : bool :=
  match searchCallback search feature with
  | Some _ => false
  | None => true
  end.

Definition searchOf (req : Request) : string :=
  string_or (option_map toLowerCase (q_search req)) EmptyString.

(** The filters by bounds and by type, in the order of the handler. *)
Definition beforeSearch (req : Request) (data : list EnrichedFeature)
  : list EnrichedFeature :=
  let data1 :=
    match q_bounds req with
    | Some bounds =>
        if JS.truthy_string bounds
        then filter (inBounds (parseBounds bounds)) data
        else data
    | None => data
    end in
  filter (hasType (typesOf (q_types req))) data1.

(** The three filters in the order of the handler; the list that the
    search filter gives when its callback does not throw. *)
Definition applyFilters (req : Request) (data : list EnrichedFeature)
  : list EnrichedFeature :=
  let data2 := beforeSearch req data in
  let search := searchOf req in
  if JS.truthy_string search then filter (matchesSearch search) data2
  else data2.

(** The search filter throws: a search text is given and the callback
    throws on one of the features that it is called on, those that the
    filters by bounds and by type have kept.  Nothing else in the [try]
    block throws once the data is loaded. *)
Definition throws (req : Request) (data : list EnrichedFeature) : bool :=
  JS.truthy_string (searchOf req)
  && existsb (searchThrows (searchOf req)) (beforeSearch req data).

(** The body of the [try] block once the data is loaded, on a request
    for which the search filter does not throw. *)
Definition respond (req : Request) (loaded : list EnrichedFeature) : Body :=
  let limit := JS.parseInt (string_or (q_limit req) "1000") in
  let offset := JS.parseInt (string_or (q_offset req) "0") in
  let data := applyFilters req loaded in
  let total := List.length data in
  let paginatedData :=
    JSArray.slice data offset (PrimFloat.add offset limit) in
  mkBody paginatedData
    (mkStats total
       (List.length (filter (isType "truck_parking") data))
       (List.length (filter (isType "service_area") data))
       (List.length (filter (isType "rest_area") data)))
    total offset limit.

(** One request: the response and the cache it leaves.  Whatever is
    thrown in the [try] block, by the load or by the search filter, is
    caught and answered by the same error response. *)
Definition GET (cachedData : Cache) (file : option (list EnrichedFeature))
  (req : Request) : Response * Cache :=
  match loadAndTransformData cachedData file with
  | (Some data, cache) =>
      if throws req data
      then (Error "Failed to load facilities" 500, cache)
      else (Json (respond req data), cache)
  | (None, cache) => (Error "Failed to load facilities" 500, cache)
  end.

End WithCaseMapping.

End Facilities.

(** ** The query as the specification words it, and the server loop *)

Module QuerySpec.

Import Facilities.

Section WithCaseMapping.

Variable toLowerCase : string -> string.

(** A facility counts for a query when it lies in the bounds (if bounds
    are given), has one of the requested types and matches the search text
    (if one is given): one predicate for "all filtering". *)
Definition passesAllFilters (req : Request) (feature : EnrichedFeature)
  : bool :=
  match q_bounds req with
  | Some bounds =>
      if JS.truthy_string bounds then inBounds (parseBounds bounds) feature
      else true
  | None => true
  end
  && hasType (typesOf (q_types req)) feature
  && (if JS.truthy_string (searchOf toLowerCase req)
      then matchesSearch toLowerCase (searchOf toLowerCase req) feature
      else true).

(** The requests served one after the other by one process, each with the
    state of the file at that moment; the cache is what links them. *)
Fixpoint serve (cachedData : Cache)
  (requests : list (option (list EnrichedFeature) * Request))
  : list Response :=
  match requests with
  | [] => []
  | (file, req) :: rest =>
      let '(response, cache) := GET toLowerCase cachedData file req in
      response :: serve cache rest
  end.

End WithCaseMapping.

(** The same query with other pagination parameters. *)
Definition withPagination (req : Request) (limit offset : option string)
  : Request :=
  mkRequest (q_bounds req) (q_types req) (q_search req) limit offset.


End QuerySpec.

(** ** Capacity per vehicle-type code, as the specification words it *)

Module CapacitySpec.

Import Xml.

(** The group carries the vehicle-type code [code]. *)
Definition hasCode (code : string) (group : value) : bool :=
  is_str code (Ndw.groupVehicleType group).

(** The spaces of the groups added up in the order of the record. *)
Definition sumSpaces (groups : list value) : float :=
  fold_left PrimFloat.add (map Ndw.groupSpaces groups) PrimFloat.zero.

(** The spaces of the groups of one code. *)
Definition spacesOfCode (code : string) (groups : list value) : float :=
  sumSpaces (filter (hasCode code) groups).

(** The groups of a parking record. *)
Definition groupsOf (record : value) : list value :=
  Ndw.ensureArray (get "groupOfParkingSpaces" record).

End CapacitySpec.

(** ** Merge passes of the NDW route *)

Module MergeSpec.

Import Ndw.

Definition responseFacilities (r : Response) : list NDWEnrichedFacility :=
  match r with
  | Json body => r_facilities body
  | Error _ _ => []
  end.

(** Consecutive requests, each with the two documents fetched for it.
    Nothing is carried from one pass to the next. *)
Definition passes (clock : nat -> string) (now : string)
  (documents : list (option Xml.value * option Xml.value))
  : list Response :=
  map (fun d => GET clock now (fst d) (snd d)) documents.

(** What an entry of the status map must satisfy: its key is the id of
    its value, is truthy, and has the property [Q]. *)
Definition entry_ok (Q : Xml.value -> Prop)
  (e : Xml.value * NDWParkingStatus) : Prop :=
  st_id (snd e) = fst e /\ Xml.truthy (fst e) = true /\ Q (fst e).

End MergeSpec.

(** ** Rows of the CSV *)

Module CsvSpec.

Import Zenodo.

(** A data row that is not blank and whose latitude or longitude does not
    parse to a number (or has no column). *)
Definition unparseable (cols : Columns) (rawLine : string) : bool :=
  let fields := splitFields (JS.trim rawLine) EmptyString false [] in
  JS.truthy_string (JS.trim rawLine)
  && invalidCoordinates (fst (rowCoordinates cols fields))
       (snd (rowCoordinates cols fields)).

(** The number of such rows in a text. *)
Definition unparseableRows (toLowerCase : string -> string)
  (csvText : string) : nat :=
  match JS.split newline (JS.trim csvText) with
  | [] => 0
  | header :: rows =>
      List.length (filter (unparseable (parseHeader toLowerCase header)) rows)
  end.

(** Both coordinates of a facility are numbers. *)
Definition located (f : ZenodoFacility) : Prop :=
  PrimFloat.is_nan (latitude (location f)) = false
  /\ PrimFloat.is_nan (longitude (location f)) = false.

End CsvSpec.

(** ** Sample data *)

Module Samples.

Local Open Scope float_scope.

Definition feature (name : string) (lat lon : float)
  (truck service rest : bool) : Facilities.EnrichedFeature :=
  Facilities.mkFeature name 1 "way" "osm" "2025-11-01" (Xml.Obj [])
    (Facilities.Text name)
    "Point" (Xml.Arr [Xml.Num lon; Xml.Num lat]) lat lon None None None 0.5
    (Facilities.mkClassification truck rest service 0.5) None None.

(** Three raw features: two inside the box of the viewport scenario and
    one south of it. *)
Definition rawFeatures : list Facilities.EnrichedFeature :=
  [feature "Hoevelaken" 52.25 4.75 true false false;
   feature "De Lucht" 51.75 5.25 false true false;
   feature "Bospoort" 52.125 4.875 false false false].



Definition viewport : Facilities.Request :=
  Facilities.mkRequest (Some "52.0,4.5,52.5,5.0") None None (Some "1") None.

Definition noParameters : Facilities.Request :=
  Facilities.mkRequest None None None None None.

Definition emptyTypes : Facilities.Request :=
  Facilities.mkRequest None (Some EmptyString) None None None.

(** A group of parking spaces for one vehicle type. *)
Definition group (vehicleType : string) (spaces : float) : Xml.value :=
  Xml.Obj
    [("parkingNumberOfSpaces", Xml.Num spaces);
     ("parkingSpaceBasics",
      Xml.Obj
        [("parkingUsage",
          Xml.Obj
            [("vehicleCharacteristics",
              Xml.Obj [("vehicleType", Xml.Str vehicleType)])])])].

(** A parking table document with the given records. *)
Definition tableOf (records : list Xml.value) : Xml.value :=
  Xml.Obj
    [("d2LogicalModel",
      Xml.Obj
        [("payloadPublication",
          Xml.Obj
            [("genericPublicationExtension",
              Xml.Obj
                [("parkingTablePublication",
                  Xml.Obj
                    [("parkingTable",
                      Xml.Obj
                        [("@_version", Xml.Num 3);
                         ("parkingRecord", Xml.Arr records)])])])])])].

Definition pointAt (lat lon : float) : (string * Xml.value) :=
  ("parkingLocation",
   Xml.Obj
     [("pointByCoordinates",
       Xml.Obj
         [("pointCoordinates",
           Xml.Obj [("latitude", Xml.Num lat);
                    ("longitude", Xml.Num lon)])])]).

(** The record of the capacity scenario: 30 lorry and 18 heavy haul
    spaces under the id NL-12_421. *)
Definition record_NL_12_421 : Xml.value :=
  Xml.Obj
    [("@_id", Xml.Str "NL-12_421");
     pointAt 52.25 4.75;
     ("groupOfParkingSpaces",
      Xml.Arr [group "lorry" 30; group "heavyHaul" 18])].

(** A record whose only group has a vehicle type outside the three
    recognised ones. *)
Definition record_cars : Xml.value :=
  Xml.Obj
    [("@_id", Xml.Str "NL-7");
     pointAt 52.25 4.75;
     ("groupOfParkingSpaces", group "car" 5)].

(** A record without any location, and one far outside every range of
    latitudes and longitudes. *)
Definition record_without_location : Xml.value :=
  Xml.Obj [("@_id", Xml.Str "NL-8")].

Definition record_out_of_range : Xml.value :=
  Xml.Obj [("@_id", Xml.Str "NL-9"); pointAt 999 (-999)].

(** A parking status document with the given status records. *)
Definition statusOf (records : list Xml.value) : Xml.value :=
  Xml.Obj [("payload", Xml.Obj [("parkingRecordStatus", Xml.Arr records)])].

Definition statusRecord (id : string) (vacant : float) : Xml.value :=
  Xml.Obj
    [("parkingRecordReference", Xml.Obj [("@_id", Xml.Str id)]);
     ("parkingOccupancy",
      Xml.Obj [("parkingNumberOfVacantSpaces", Xml.Num vacant)]);
     ("parkingStatusOriginTime", Xml.Str "2025-11-17T23:25:00Z")].

Definition statusRecord_without_reference : Xml.value :=
  Xml.Obj
    [("parkingOccupancy",
      Xml.Obj [("parkingNumberOfVacantSpaces", Xml.Num 4)])].

Definition clock (i : nat) : string := "2025-11-17T23:30:00Z".

(** The text of an id that is a string, as all ids of the samples are. *)
Definition idText (v : Xml.value) : string :=
  match v with
  | Xml.Str s => s
  | _ => EmptyString
  end.

Definition austria : EuParking.Source :=
  EuParking.mkSource "AT" "Austria"
    "https://data.europa.eu/euodp/repository/ec/dg-move/etpa/AT-ASFINAG.xml".

(** A text made of the given lines. *)
Definition textOfLines (lines : list string) : string :=
  String.concat (String Zenodo.newline EmptyString) lines.

(** A table with a good row and a row without numbers, the same table
    without the second row, and a table whose row stops before the
    country column. *)
Definition csv_with_bad_row : string :=
  textOfLines ["lat;lon"; "52.25;4.75"; "north;east"].

Definition csv_without_bad_row : string :=
  textOfLines ["lat;lon"; "52.25;4.75"].

Definition csv_with_short_row : string :=
  textOfLines ["lat;lon;country"; "52.25;4.75"].

End Samples.

(** ** The handler of the EU route *)

Module EuRoute.

Import EuParking.

(** [EU_DATA_SOURCES] *)
Definition EU_DATA_SOURCES : list Source :=
  [mkSource "AT" "Austria"
     "https://data.europa.eu/euodp/repository/ec/dg-move/etpa/AT-ASFINAG.xml";
   mkSource "DE" "Germany (Schleswig-Holstein)"
     "https://data.europa.eu/euodp/repository/ec/dg-move/etpa/DE-DE-SH-ITP.xml"].

Record Body : Type := mkBody {
  facilities : list EUParkingFacility;
  message : option string;
  totalFacilities : nat;
  sources : list (string * string);
  lastUpdated : option string
}.

Inductive Response : Type :=
| Json (body : Body)
| Error (message : string) (code : nat).

(** [GET]; [fetch src] is the parsed document of a source, [None] when
    its fetch failed.  [fetchAndParseEUData] catches whatever is thrown,
    so [Promise.all] never rejects and the [catch] of the handler is never
    reached. *)
Definition GET (toString : Xml.value -> string) (now : string)
  (fetch : Source -> option Xml.value) : Response :=
  match EU_DATA_SOURCES with
  | [] =>
      Json (mkBody []
              (Some "No EU data sources configured. Add DATEX II URLs to EU_DATA_SOURCES in app/api/eu-parking/route.ts")
              0 [] None)
  | _ :: _ =>
      let results :=
        map (fun src => fetchAndParseEUData toString src (fetch src))
            EU_DATA_SOURCES in
      let allFacilities := List.concat results in
      Json (mkBody allFacilities None (List.length allFacilities)
              (map (fun s => (country s, source_name s)) EU_DATA_SOURCES)
              (Some now))
  end.

End EuRoute.

(** ** The map component: the request it sends and its own filter *)

Module MapClient.

Import Facilities.







Section WithCaseMapping.

Variable toLowerCase : string -> string.


End WithCaseMapping.

End MapClient.

(** ** Notions used to state further properties *)

Module Notions.

Import Xml.


(** A success response whose three counts per type add up to its total. *)
Definition statsAddUp (r : Facilities.Response) : Prop :=
  match r with
  | Facilities.Json body =>
      Facilities.s_total (Facilities.stats body) = Facilities.total body
      /\ Facilities.s_truck_parking (Facilities.stats body)
         + Facilities.s_service_area (Facilities.stats body)
         + Facilities.s_rest_area (Facilities.stats body)
         = Facilities.total body
  | Facilities.Error _ _ => True
  end.

(** A feature whose type is one of the three derived values. *)
Definition typed (f : Facilities.EnrichedFeature) : Prop :=
  In (Facilities.facility_type f)
     [Some "truck_parking"; Some "service_area"; Some "rest_area"].







(** A string, a number or a boolean. *)
Definition primitive (v : value) : bool :=
  match v with
  | Str _ | Num _ | Bool _ => true
  | Arr _ | Obj _ => false
  end.

(** No two keys of the list are the same key of a [Map]. *)
Definition distinctKeys (keys : list value) : Prop :=
  ForallOrdPairs (fun a b => sameValueZero a b = false) keys.

(** The numbers of a status are numbers, not [NaN]. *)
Definition statusNumbersOk (s : Ndw.NDWParkingStatus) : Prop :=
  PrimFloat.is_nan (Ndw.vacantSpaces s) = false
  /\ PrimFloat.is_nan (Ndw.occupiedSpaces s) = false
  /\ PrimFloat.is_nan (Ndw.occupancy s) = false.

(** An optional list is absent or has an item. *)
Definition absentOrNonEmpty {A : Type} (o : option (list A)) : Prop :=
  o <> Some [].

Definition dash : ascii := ascii_of_nat 45.

Fixpoint hasChar (c : ascii) (s : string) : bool :=
  match s with
  | EmptyString => false
  | String a r => Ascii.eqb a c || hasChar c r
  end.

(** The text after the last dash of a string (the string itself when it
    has no dash). *)
Fixpoint afterLastDash (s : string) : string :=
  match s with
  | EmptyString => EmptyString
  | String c r =>
      if hasChar dash r then afterLastDash r
      else if Ascii.eqb c dash then r
      else s
  end.

(** The fields of a row as the loop of [parseCSV] splits them. *)
Definition fieldsOf (rawLine : string) : list string :=
  Zenodo.splitFields (JS.trim rawLine) EmptyString false [].

(** A column that the header has is missing in the row. *)
Definition lacks (fields : list string) (column : option nat) : bool :=
  match column with
  | Some k => Nat.leb (List.length fields) k
  | None => false
  end.

(** The row has no field for the country, the category or the name
    column. *)
Definition missingField (cols : Zenodo.Columns) (fields : list string)
  : bool :=
  lacks fields (Zenodo.countryIndex cols)
  || lacks fields (Zenodo.categoryIndex cols)
  || lacks fields (Zenodo.nameIndex cols).

(** The text in front of the first word of a list of words. *)
Definition joinFirst (prefix : string) (words : list string) : list string :=
  match words with
  | w :: ws => (prefix ++ w)%string :: ws
  | [] => [prefix]
  end.

End Notions.

(** * Properties *)

(** ** Lists and slices *)

Section ListFacts.

Context {A : Type}.

Lemma filter_filter (p q : A -> bool) (l : list A) :
  filter q (filter p l) = filter (fun x => p x && q x) l.
Proof.
  induction l as [|x l IH]; simpl; [reflexivity|].
  destruct (p x); simpl; [destruct (q x)|]; rewrite ?IH; reflexivity.
Qed.

Lemma filter_all (p : A -> bool) (l : list A) :
  Forall (fun x => p x = true) l -> filter p l = l.
Proof.
  induction 1 as [|x l Hx _ IH]; simpl; [reflexivity|].
  rewrite Hx, IH; reflexivity.
Qed.

Lemma filter_none (p : A -> bool) (l : list A) :
  Forall (fun x => p x = false) l -> filter p l = [].
Proof.
  induction 1 as [|x l Hx _ IH]; simpl; [reflexivity|].
  rewrite Hx; exact IH.
Qed.

Lemma incl_firstn (n : nat) (l : list A) : incl (firstn n l) l.
Proof.
  revert n; induction l as [|x l IH]; intros [|n]; simpl.
  - intros y Hy; exact Hy.
  - intros y Hy; exact Hy.
  - intros y Hy; destruct Hy.
  - intros y [<-|Hy]; [left; reflexivity | right; apply (IH n y Hy)].
Qed.

Lemma incl_skipn (n : nat) (l : list A) : incl (skipn n l) l.
Proof.
  revert l; induction n as [|n IH]; intros [|x l]; simpl.
  - intros y Hy; exact Hy.
  - intros y Hy; exact Hy.
  - intros y Hy; exact Hy.
  - intros y Hy; right; apply (IH l y Hy).
Qed.

Lemma incl_slice (l : list A) (a b : float) : incl (JSArray.slice l a b) l.
Proof.
  unfold JSArray.slice; intros y Hy.
  apply incl_skipn with (n := JSArray.relativeIndex (List.length l) a).
  eapply incl_firstn; exact Hy.
Qed.

End ListFacts.

(** ** The facilities route *)

Section FacilitiesFacts.

Import Facilities QuerySpec.

Variable toLowerCase : string -> string.

Lemma applyFilters_spec (req : Request) (data : list EnrichedFeature) :
  applyFilters toLowerCase req data
  = filter (passesAllFilters toLowerCase req) data.
Proof.
  unfold applyFilters, beforeSearch, passesAllFilters.
  destruct (q_bounds req) as [bounds|]; [destruct (JS.truthy_string bounds)|];
    destruct (JS.truthy_string (searchOf toLowerCase req));
    rewrite ?filter_filter; apply filter_ext; intro f; simpl;
    rewrite ?andb_true_r, ?andb_assoc; reflexivity.
Qed.

Lemma applyFilters_inBounds (req : Request) (data : list EnrichedFeature)
  (bounds : string) (f : EnrichedFeature) :
  q_bounds req = Some bounds -> JS.truthy_string bounds = true ->
  In f (applyFilters toLowerCase req data) ->
  inBounds (parseBounds bounds) f = true.
Proof.
  intros Hb Ht. rewrite applyFilters_spec. intros Hin.
  apply filter_In in Hin. destruct Hin as [_ Hp].
  unfold passesAllFilters in Hp. rewrite Hb, Ht in Hp.
  apply andb_true_iff in Hp. destruct Hp as [Hp _].
  apply andb_true_iff in Hp. destruct Hp as [Hp _]. exact Hp.
Qed.

(** A success response of the handler is [respond] on the loaded data. *)
Lemma GET_json (cachedData : Cache) (file : option (list EnrichedFeature))
  (req : Request) (body : Body) (cache : Cache) :
  GET toLowerCase cachedData file req = (Json body, cache) ->
  exists data,
    loadAndTransformData cachedData file = (Some data, cache)
    /\ throws toLowerCase req data = false
    /\ body = respond toLowerCase req data.
Proof.
  unfold GET.
  destruct (loadAndTransformData cachedData file) as [[data|] c];
    [destruct (throws toLowerCase req data) eqn:Ht|]; try discriminate.
  intros [= <- <-]. exists data. repeat split; auto.
Qed.

Lemma total_respond (req : Request) (data : list EnrichedFeature) :
  total (respond toLowerCase req data)
  = List.length (applyFilters toLowerCase req data).
Proof. reflexivity. Qed.

Lemma applyFilters_pagination (req : Request) (limit offset : option string)
  (data : list EnrichedFeature) :
  applyFilters toLowerCase (withPagination req limit offset) data
  = applyFilters toLowerCase req data.
Proof. reflexivity. Qed.

(** C1.  A query with bounds returns only facilities whose latitude lies
    between the minimum and maximum latitude and whose longitude lies
    between the minimum and maximum longitude of the bounds; the returned
    facilities are taken from the facilities that pass all filters (bounds,
    type, search), [total] is the number of those, counted before the page
    is cut, and it is the same for every [limit] and [offset]. *)
Theorem viewport_query_bounds_and_total
  (data : list EnrichedFeature) (req : Request) (bounds : string)
  (minLat minLng maxLat maxLng : float) :
  q_bounds req = Some bounds ->
  JS.truthy_string bounds = true ->
  parseBounds bounds = (minLat, minLng, maxLat, maxLng) ->
  let body := respond toLowerCase req data in
  (forall f, In f (facilities body) ->
     PrimFloat.leb minLat (latitude f) = true
     /\ PrimFloat.leb (latitude f) maxLat = true
     /\ PrimFloat.leb minLng (longitude f) = true
     /\ PrimFloat.leb (longitude f) maxLng = true)
  /\ incl (facilities body) (filter (passesAllFilters toLowerCase req) data)
  /\ total body
     = List.length (filter (passesAllFilters toLowerCase req) data)
  /\ (forall limit offset,
        total (respond toLowerCase (withPagination req limit offset) data)
        = total body).
Proof.
  intros Hb Ht Hp body. split; [|split; [|split]].
  - intros f Hf.
    assert (Hin : inBounds (parseBounds bounds) f = true).
    { apply (applyFilters_inBounds req data); auto.
      revert Hf. apply incl_slice. }
    rewrite Hp in Hin. unfold inBounds, JS.ge, JS.le in Hin.
    apply andb_true_iff in Hin. destruct Hin as [Hin Hmaxlng].
    apply andb_true_iff in Hin. destruct Hin as [Hin Hminlng].
    apply andb_true_iff in Hin. destruct Hin as [Hminlat Hmaxlat].
    repeat split; assumption.
  - subst body. unfold respond. simpl facilities.
    rewrite <- applyFilters_spec. apply incl_slice.
  - subst body. rewrite total_respond, applyFilters_spec. reflexivity.
  - intros limit offset. reflexivity.
Qed.

(** C9.  For every input feature the type that the loader derives
    follows the precedence over the flags of that feature: truck parking
    when [is_truck_parking] is set; otherwise service area when
    [is_service_area] is set; otherwise rest area, also when every flag is
    false.  The derived type is one of the three values, the flags are
    kept, and the types of a loaded file are those of its features in
    their order. *)
Theorem facility_type_precedence (feature : EnrichedFeature)
  (rawData : list EnrichedFeature) :
  (is_truck_parking (classification feature) = true ->
   facility_type (transform feature) = Some "truck_parking")
  /\ (is_truck_parking (classification feature) = false ->
      is_service_area (classification feature) = true ->
      facility_type (transform feature) = Some "service_area")
  /\ (is_truck_parking (classification feature) = false ->
      is_service_area (classification feature) = false ->
      facility_type (transform feature) = Some "rest_area")
  /\ In (facility_type (transform feature))
        [Some "truck_parking"; Some "service_area"; Some "rest_area"]
  /\ classification (transform feature) = classification feature
  /\ option_map (map facility_type)
        (fst (loadAndTransformData None (Some rawData)))
     = Some (map (fun raw =>
                    Some (if is_truck_parking (classification raw)
                          then "truck_parking"
                          else if is_service_area (classification raw)
                               then "service_area"
                               else "rest_area"))
               rawData).
Proof.
  assert (H : forall raw,
             facility_type (transform raw)
             = Some (if is_truck_parking (classification raw)
                     then "truck_parking"
                     else if is_service_area (classification raw)
                          then "service_area"
                          else "rest_area")).
  { intros raw. unfold transform, deriveFacilityType. cbn [facility_type].
    destruct (classification raw) as [[] [] [] c]; reflexivity. }
  repeat split.
  - intros Ht. rewrite H, Ht. reflexivity.
  - intros Ht Hs. rewrite H, Ht, Hs. reflexivity.
  - intros Ht Hs. rewrite H, Ht, Hs. reflexivity.
  - rewrite H.
    destruct (is_truck_parking (classification feature));
      [|destruct (is_service_area (classification feature))];
      simpl; auto.
  - cbn [loadAndTransformData fst option_map]. f_equal.
    rewrite map_map. apply map_ext. exact H.
Qed.

Lemma hasType_all_types (feature : EnrichedFeature) :
  hasType (typesOf None) (transform feature) = true.
Proof.
  unfold hasType, typeOrDefault, transform, deriveFacilityType; simpl.
  destruct (classification feature) as [[] [] [] c]; reflexivity.
Qed.

Lemma typeOrDefault_truthy (feature : EnrichedFeature) :
  JS.truthy_string (typeOrDefault feature) = true.
Proof.
  unfold typeOrDefault. destruct (facility_type feature) as [t|]; auto.
  destruct (JS.truthy_string t) eqn:E; auto.
Qed.

Lemma hasType_empty_text (feature : EnrichedFeature) :
  hasType (typesOf (Some EmptyString)) feature = false.
Proof.
  unfold hasType; simpl. pose proof (typeOrDefault_truthy feature) as H.
  destruct (typeOrDefault feature); [discriminate H | reflexivity].
Qed.

(** C5, amended.  When the [types] parameter is absent the query uses all
    three types and the type filter removes no loaded facility, so that
    without bounds and search text [total] is the number of loaded
    facilities; a [types] parameter that is present with an empty value
    selects no facility. *)
Theorem absent_types_select_all (rawData : list EnrichedFeature) :
  let data := map transform rawData in
  filter (hasType (typesOf None)) data = data
  /\ (forall limit offset,
        total (respond toLowerCase
                 (mkRequest None None None limit offset) data)
        = List.length rawData)
  /\ (forall loaded, filter (hasType (typesOf (Some EmptyString))) loaded = []).
Proof.
  intros data.
  assert (Hall : filter (hasType (typesOf None)) data = data).
  { apply filter_all. apply Forall_forall. intros f Hf.
    apply in_map_iff in Hf. destruct Hf as [raw [<- _]].
    apply hasType_all_types. }
  split; [exact Hall | split].
  - intros limit offset. rewrite total_respond.
    change (applyFilters toLowerCase (mkRequest None None None limit offset)
              data)
      with (filter (hasType (typesOf None)) data).
    rewrite Hall. subst data. apply length_map.
  - intros loaded. apply filter_none. apply Forall_forall. intros f _.
    apply hasType_empty_text.
Qed.










End FacilitiesFacts.

(** The viewport scenario: of three features, two lie in the box
    [52.0,4.5,52.5,5.0]; with [limit=1] one is returned and [total] is 2. *)
Lemma viewport_query_bounds_and_total_witness :
  let body :=
    Facilities.respond JS.asciiLowerCase Samples.viewport
      (map Facilities.transform Samples.rawFeatures) in
  (map Facilities.name (Facilities.facilities body)
   = [Facilities.Text "Hoevelaken"]
   /\ Facilities.total body = 2)
  /\ (forall f, In f (Facilities.facilities body) ->
       PrimFloat.leb 52 (Facilities.latitude f) = true
       /\ PrimFloat.leb (Facilities.latitude f) 52.5 = true
       /\ PrimFloat.leb 4.5 (Facilities.longitude f) = true
       /\ PrimFloat.leb (Facilities.longitude f) 5 = true).
Proof.
  split; [split; reflexivity|].
  apply (viewport_query_bounds_and_total JS.asciiLowerCase
           (map Facilities.transform Samples.rawFeatures) Samples.viewport
           "52.0,4.5,52.5,5.0" 52 4.5 52.5 5); reflexivity.
Defined.

(** With [types=] (present and empty) the query over a loaded snapshot of
    three facilities returns nothing, and all three without the
    parameter. *)
Lemma empty_types_select_none :
  let data := map Facilities.transform Samples.rawFeatures in
  Facilities.facilities
    (Facilities.respond JS.asciiLowerCase Samples.emptyTypes data) = []
  /\ Facilities.total
       (Facilities.respond JS.asciiLowerCase Samples.emptyTypes data) = 0
  /\ Facilities.total
       (Facilities.respond JS.asciiLowerCase Samples.noParameters data) = 3.
Proof. repeat split; reflexivity. Qed.



(** Hoevelaken is flagged as truck parking, De Lucht as service area only
    and Bospoort has no flag. *)
Lemma facility_type_precedence_witness :
  Facilities.facility_type
    (Facilities.transform
       (Samples.feature "Hoevelaken" 52.25 4.75 true false false))
  = Some "truck_parking"
  /\ Facilities.facility_type
       (Facilities.transform
          (Samples.feature "De Lucht" 51.75 5.25 false true false))
     = Some "service_area"
  /\ Facilities.facility_type
       (Facilities.transform
          (Samples.feature "Bospoort" 52.125 4.875 false false false))
     = Some "rest_area"
  /\ option_map (map Facilities.facility_type)
       (fst (Facilities.loadAndTransformData None (Some Samples.rawFeatures)))
     = Some [Some "truck_parking"; Some "service_area"; Some "rest_area"].
Proof.
  split; [|split; [|split]].
  - destruct (facility_type_precedence
                (Samples.feature "Hoevelaken" 52.25 4.75 true false false)
                Samples.rawFeatures) as [H _].
    apply H. reflexivity.
  - destruct (facility_type_precedence
                (Samples.feature "De Lucht" 51.75 5.25 false true false)
                Samples.rawFeatures) as [_ [H _]].
    apply H; reflexivity.
  - destruct (facility_type_precedence
                (Samples.feature "Bospoort" 52.125 4.875 false false false)
                Samples.rawFeatures) as [_ [_ [H _]]].
    apply H; reflexivity.
  - destruct (facility_type_precedence
                (Samples.feature "Bospoort" 52.125 4.875 false false false)
                Samples.rawFeatures) as [_ [_ [_ [_ [_ H]]]]].
    rewrite H. reflexivity.
Defined.

(** ** Numbers and keys *)

Section NumberFacts.

Lemma positive_not_zero (x : float) :
  PrimFloat.ltb PrimFloat.zero x = true ->
  PrimFloat.eqb x PrimFloat.zero = false.
Proof.
  rewrite FloatAxioms.ltb_spec, FloatAxioms.eqb_spec.
  change (Prim2SF PrimFloat.zero) with (S754_zero false).
  destruct (Prim2SF x) as [s|s| |s m e]; try destruct s; simpl;
    try discriminate; reflexivity.
Qed.

Lemma zero_not_positive (x : float) :
  PrimFloat.eqb x PrimFloat.zero = true ->
  Ndw.positive_or_undefined x = None.
Proof.
  intros H. unfold Ndw.positive_or_undefined, JS.gt.
  destruct (PrimFloat.ltb PrimFloat.zero x) eqn:E; [|reflexivity].
  apply positive_not_zero in E. congruence.
Qed.

Lemma positive_or_undefined_some (n x : float) :
  Ndw.positive_or_undefined n = Some x ->
  PrimFloat.ltb PrimFloat.zero x = true
  /\ PrimFloat.eqb x PrimFloat.zero = false.
Proof.
  unfold Ndw.positive_or_undefined, JS.gt.
  destruct (PrimFloat.ltb PrimFloat.zero n) eqn:E; [|discriminate].
  intros [= <-]. split; [exact E | apply positive_not_zero, E].
Qed.

Import Xml.

Lemma sameValueZero_truthy_eq (a b : value) :
  sameValueZero a b = true -> truthy b = true -> a = b.
Proof.
  destruct a, b; simpl; try discriminate.
  - intros H _. apply String.eqb_eq in H. congruence.
  - intros H T. apply orb_true_iff in H. destruct H as [H|H].
    + apply FloatAxioms.Leibniz.eqb_spec in H. congruence.
    + apply andb_true_iff in H. destruct H as [_ H].
      unfold JS.truthy_number in T. rewrite H in T. discriminate.
  - intros H _. apply Bool.eqb_prop in H. congruence.
Qed.

Lemma sameValueZero_sym (a b : value) :
  sameValueZero a b = sameValueZero b a.
Proof.
  destruct a, b; simpl; try reflexivity.
  - apply String.eqb_sym.
  - rewrite (andb_comm (PrimFloat.is_zero n)). f_equal.
    destruct (PrimFloat.Leibniz.eqb n n0) eqn:E.
    + apply FloatAxioms.Leibniz.eqb_spec in E. subst.
      symmetry. apply FloatAxioms.Leibniz.eqb_spec. reflexivity.
    + destruct (PrimFloat.Leibniz.eqb n0 n) eqn:E'; [|reflexivity].
      apply FloatAxioms.Leibniz.eqb_spec in E'. subst.
      rewrite <- E. apply FloatAxioms.Leibniz.eqb_spec. reflexivity.
  - destruct b, b0; reflexivity.
Qed.

Lemma sameValueZero_trans (a b c : value) :
  sameValueZero a b = true -> sameValueZero b c = true ->
  sameValueZero a c = true.
Proof.
  destruct a, b; simpl; try discriminate; destruct c; simpl;
    try discriminate.
  - intros H1 H2. apply String.eqb_eq in H1, H2. subst.
    apply String.eqb_refl.
  - intros H1 H2. apply orb_true_iff in H1, H2. apply orb_true_iff.
    destruct H1 as [H1|H1], H2 as [H2|H2].
    + apply FloatAxioms.Leibniz.eqb_spec in H1, H2. subst.
      left. apply FloatAxioms.Leibniz.eqb_spec. reflexivity.
    + apply FloatAxioms.Leibniz.eqb_spec in H1. subst. right. exact H2.
    + apply FloatAxioms.Leibniz.eqb_spec in H2. subst. right. exact H1.
    + apply andb_true_iff in H1, H2. right. apply andb_true_iff.
      split; [apply H1 | apply H2].
  - intros H1 H2. apply Bool.eqb_prop in H1, H2. subst.
    apply Bool.eqb_reflx.
Qed.

End NumberFacts.

(** ** The NDW route: the static table *)

Section TableFacts.

Import Xml Ndw CapacitySpec.

Lemma is_str_exclusive (a b : string) (v : option value) :
  is_str a v = true -> String.eqb a b = false -> is_str b v = false.
Proof.
  destruct v as [[s| | | |]|]; simpl; try discriminate.
  intros H. apply String.eqb_eq in H. subst. auto.
Qed.

(** The loop from any state of the counters: each counter grows by the
    spaces of the groups of its own code, the total by all of them. *)
Lemma countGroups_from (groups : list value) (c : Counters) :
  fold_left countGroup groups c
  = mkCounters
      (fold_left PrimFloat.add (map groupSpaces groups) (c_total c))
      (fold_left PrimFloat.add
         (map groupSpaces (filter (hasCode "lorry") groups)) (c_lorry c))
      (fold_left PrimFloat.add
         (map groupSpaces (filter (hasCode "refrigeratedGoods") groups))
         (c_refrigerated c))
      (fold_left PrimFloat.add
         (map groupSpaces (filter (hasCode "heavyHaul") groups))
         (c_heavyHaul c)).
Proof.
  revert c. induction groups as [|g groups IH]; intros c.
  - destruct c; reflexivity.
  - simpl fold_left at 1. rewrite IH. clear IH.
    unfold countGroup, hasCode. simpl filter.
    destruct (is_str "lorry" (groupVehicleType g)) eqn:L.
    + rewrite (is_str_exclusive "lorry" "refrigeratedGoods" _ L eq_refl).
      rewrite (is_str_exclusive "lorry" "heavyHaul" _ L eq_refl).
      reflexivity.
    + destruct (is_str "refrigeratedGoods" (groupVehicleType g)) eqn:R.
      * rewrite (is_str_exclusive "refrigeratedGoods" "heavyHaul" _ R
                   eq_refl).
        reflexivity.
      * destruct (is_str "heavyHaul" (groupVehicleType g)); reflexivity.
Qed.

Lemma capacity_parseRecord (record : value) :
  capacity (parseRecord record)
  = mkCapacity
      (sumSpaces (groupsOf record))
      (positive_or_undefined (spacesOfCode "lorry" (groupsOf record)))
      (positive_or_undefined
         (spacesOfCode "refrigeratedGoods" (groupsOf record)))
      (positive_or_undefined (spacesOfCode "heavyHaul" (groupsOf record))).
Proof.
  unfold parseRecord. cbn [capacity]. unfold countGroups.
  rewrite countGroups_from. reflexivity.
Qed.

(** C2, amended.  The static adapter adds up the spaces of the groups of
    a record per vehicle-type code: [lorrySpaces], [refrigeratedSpaces] and
    [heavyHaulSpaces] hold the sums for the codes lorry, refrigeratedGoods
    and heavyHaul (absent when not above zero) and [totalSpaces] the sum
    over all groups; a group with any other code adds to [totalSpaces]
    only and to none of the three buckets; the record with 30 lorry and 18
    heavyHaul spaces yields lorry 30, heavy haul 18 and total 48. *)
Theorem capacity_sums_per_vehicle_type (record : value) :
  capacity (parseRecord record)
  = mkCapacity
      (sumSpaces (groupsOf record))
      (positive_or_undefined (spacesOfCode "lorry" (groupsOf record)))
      (positive_or_undefined
         (spacesOfCode "refrigeratedGoods" (groupsOf record)))
      (positive_or_undefined (spacesOfCode "heavyHaul" (groupsOf record)))
  /\ (forall c group,
        hasCode "lorry" group = false ->
        hasCode "refrigeratedGoods" group = false ->
        hasCode "heavyHaul" group = false ->
        countGroup c group
        = mkCounters (PrimFloat.add (c_total c) (groupSpaces group))
            (c_lorry c) (c_refrigerated c) (c_heavyHaul c))
  /\ map capacity
       (parseParkingTable (Samples.tableOf [Samples.record_NL_12_421]))
     = [mkCapacity 48 (Some 30%float) None (Some 18%float)].
Proof.
  split; [apply capacity_parseRecord | split; [|reflexivity]].
  intros c group L R H. unfold hasCode in L, R, H. unfold countGroup.
  rewrite L, R, H. reflexivity.
Qed.

(** C7.  In every facility produced by the static adapter an entry for
    lorry, refrigerated or heavy-haul spaces that is present is above zero
    and so never zero; a count that is zero gives an absent entry. *)
Theorem capacity_entries_never_zero (data : value)
  (f : NDWParkingFacility) (x : float) :
  In f (parseParkingTable data) ->
  lorrySpaces (capacity f) = Some x
  \/ refrigeratedSpaces (capacity f) = Some x
  \/ heavyHaulSpaces (capacity f) = Some x ->
  (PrimFloat.ltb PrimFloat.zero x = true
   /\ PrimFloat.eqb x PrimFloat.zero = false)
  /\ (forall count, PrimFloat.eqb count PrimFloat.zero = true ->
        positive_or_undefined count = None).
Proof.
  intros Hin Hx. split; [|exact zero_not_positive].
  unfold parseParkingTable in Hin. apply in_map_iff in Hin.
  destruct Hin as [record [<- _]]. rewrite capacity_parseRecord in Hx.
  cbn [lorrySpaces refrigeratedSpaces heavyHaulSpaces] in Hx.
  destruct Hx as [Hx|[Hx|Hx]]; apply positive_or_undefined_some in Hx;
    exact Hx.
Qed.

Lemma number_or_zero_number (x : float) :
  JS.truthy_number x = true ->
  number_or_zero (extractNumber (Some (Num x))) = x.
Proof. intros H. simpl. rewrite H. reflexivity. Qed.

(** C3, amended.  Neither adapter rejects a record: each parking record
    yields exactly one facility; a latitude or longitude that is missing
    is replaced by 0, and one that is present as a number other than 0 and
    NaN is passed on as it is, without any check of its range. *)
Theorem records_are_never_rejected (data : value) :
  List.length (parseParkingTable data) = List.length (parkingRecords data)
  /\ (forall toString src,
        List.length (EuParking.fetchAndParseEUData toString src (Some data))
        = List.length (parkingRecords data))
  /\ (forall record,
        oget "latitude" (pointCoordinates record) = None ->
        latitude (location (parseRecord record)) = PrimFloat.zero
        /\ forall toString src,
            EuParking.latitude
              (EuParking.location (EuParking.parseRecord toString src record))
            = PrimFloat.zero)
  /\ (forall record,
        oget "longitude" (pointCoordinates record) = None ->
        longitude (location (parseRecord record)) = PrimFloat.zero
        /\ forall toString src,
            EuParking.longitude
              (EuParking.location (EuParking.parseRecord toString src record))
            = PrimFloat.zero)
  /\ (forall record x,
        JS.truthy_number x = true ->
        oget "latitude" (pointCoordinates record) = Some (Num x) ->
        latitude (location (parseRecord record)) = x
        /\ forall toString src,
            EuParking.latitude
              (EuParking.location (EuParking.parseRecord toString src record))
            = x)
  /\ (forall record x,
        JS.truthy_number x = true ->
        oget "longitude" (pointCoordinates record) = Some (Num x) ->
        longitude (location (parseRecord record)) = x
        /\ forall toString src,
            EuParking.longitude
              (EuParking.location (EuParking.parseRecord toString src record))
            = x).
Proof.
  split; [apply length_map | split; [intros; apply length_map|]].
  unfold parseRecord, EuParking.parseRecord, EuParking.extractNumber.
  cbn [location latitude longitude EuParking.location EuParking.latitude
       EuParking.longitude].
  split; [|split; [|split]].
  - intros record Hmissing. rewrite Hmissing. split; reflexivity.
  - intros record Hmissing. rewrite Hmissing. split; reflexivity.
  - intros record x Hx Hlat. rewrite Hlat.
    split; [|intros _ _]; apply number_or_zero_number, Hx.
  - intros record x Hx Hlon. rewrite Hlon.
    split; [|intros _ _]; apply number_or_zero_number, Hx.
Qed.

End TableFacts.

(** A group for cars counts in the total only. *)
Lemma capacity_sums_per_vehicle_type_witness :
  Ndw.countGroup Ndw.counters0 (Samples.group "car" 5)
  = Ndw.mkCounters 5 0 0 0.
Proof.
  destruct (capacity_sums_per_vehicle_type Samples.record_cars)
    as [_ [H _]].
  apply (H Ndw.counters0 (Samples.group "car" 5)); reflexivity.
Defined.

(** The five car spaces of the sample record are in no bucket: the lorry
    entry is absent, although lorry is the bucket of trucks. *)
Lemma unrecognised_code_not_in_truck_bucket :
  map Ndw.capacity
    (Ndw.parseParkingTable (Samples.tableOf [Samples.record_cars]))
  = [Ndw.mkCapacity 5 None None None].
Proof. reflexivity. Qed.

Lemma capacity_entries_never_zero_witness :
  In (Ndw.parseRecord Samples.record_NL_12_421)
     (Ndw.parseParkingTable (Samples.tableOf [Samples.record_NL_12_421]))
  /\ Ndw.lorrySpaces (Ndw.capacity (Ndw.parseRecord Samples.record_NL_12_421))
     = Some 30%float
  /\ PrimFloat.ltb PrimFloat.zero 30 = true
  /\ PrimFloat.eqb 30 PrimFloat.zero = false.
Proof.
  split; [left; reflexivity | split; [reflexivity|]].
  apply (capacity_entries_never_zero
           (Samples.tableOf [Samples.record_NL_12_421])
           (Ndw.parseRecord Samples.record_NL_12_421) 30).
  - left; reflexivity.
  - left; reflexivity.
Defined.

(** A record without location is emitted at latitude 0 and longitude 0,
    and one at latitude 999 is emitted as it is. *)
Lemma ungeolocated_records_are_emitted :
  map Ndw.location
    (Ndw.parseParkingTable
       (Samples.tableOf
          [Samples.record_without_location; Samples.record_out_of_range]))
  = [Ndw.mkLocation 0 0; Ndw.mkLocation 999 (-999)].
Proof. reflexivity. Qed.

Lemma records_are_never_rejected_witness :
  Ndw.latitude (Ndw.location (Ndw.parseRecord Samples.record_without_location))
  = PrimFloat.zero
  /\ Ndw.latitude (Ndw.location (Ndw.parseRecord Samples.record_out_of_range))
     = 999%float.
Proof.
  destruct (records_are_never_rejected (Samples.tableOf []))
    as [_ [_ [H0 [_ [H1 _]]]]].
  split.
  - apply (H0 Samples.record_without_location). reflexivity.
  - apply (H1 Samples.record_out_of_range 999%float); reflexivity.
Defined.

(** ** The NDW route: the status map and the merge *)

Section StatusFacts.

Import Xml Ndw MergeSpec.

Lemma map_set_truthy (m : StatusMap) (k : value) (v : NDWParkingStatus) :
  truthy k = true -> map_set m k v = map_put m k v.
Proof.
  intros T. unfold map_set. destruct k; try reflexivity.
  simpl in T. unfold JS.truthy_number in T.
  destruct (PrimFloat.is_zero n); [discriminate T | reflexivity].
Qed.

Lemma map_put_ok (Q : value -> Prop) (m : StatusMap) (k : value)
  (v : NDWParkingStatus) :
  Forall (entry_ok Q) m -> entry_ok Q (k, v) ->
  Forall (entry_ok Q) (map_put m k v).
Proof.
  intros Hm Hkv. induction Hm as [|[k' v'] m He Hm IH]; simpl.
  - constructor; [exact Hkv | constructor].
  - destruct (sameValueZero k' k) eqn:E.
    + constructor; [|exact Hm].
      destruct Hkv as [Hid [Ht Hq]]. simpl in Hid, Ht, Hq.
      apply sameValueZero_truthy_eq in E; [|exact Ht]. subst k'.
      repeat split; assumption.
    + constructor; [exact He | exact IH].
Qed.

Lemma statusStep_ok (Q : value -> Prop) (now : string) (m : StatusMap)
  (r : value) :
  Forall (entry_ok Q) m ->
  (forall k, referenceId r = Some k -> Q k) ->
  Forall (entry_ok Q) (statusStep now m r).
Proof.
  intros Hm Hq. unfold statusStep.
  destruct (referenceId r) as [k|] eqn:Ek; [|exact Hm].
  destruct (truthy k) eqn:Tk; [|exact Hm].
  rewrite map_set_truthy by exact Tk.
  apply map_put_ok; [exact Hm|].
  repeat split; auto.
Qed.

Lemma forEachStatus_ok (Q : value -> Prop) (clock : nat -> string)
  (records : list value) :
  (forall r k, In r records -> referenceId r = Some k -> Q k) ->
  forall (i : nat) (m : StatusMap),
    Forall (entry_ok Q) m ->
    Forall (entry_ok Q) (forEachStatus clock i records m).
Proof.
  induction records as [|r records IH]; intros Hq i m Hm; simpl.
  - exact Hm.
  - apply IH.
    + intros r' k Hin. apply Hq. right. exact Hin.
    + apply statusStep_ok; [exact Hm|].
      intros k. apply Hq. left. reflexivity.
Qed.

Lemma statusStep_without_id (now : string) (m : StatusMap) (r : value) :
  truthy_opt (referenceId r) = false -> statusStep now m r = m.
Proof.
  unfold statusStep. destruct (referenceId r) as [k|]; simpl; [|reflexivity].
  intros ->. reflexivity.
Qed.

(** C10.  Every entry of the status map that [parseParkingStatus] returns
    has as key the [id] of its value, and that key is the truthy reference
    id of a status record of the document; a status record without such an
    id leaves the map as it is, so it is stored under no key. *)
Theorem status_map_keys_are_ids (clock : nat -> string) (data : value) :
  (forall k v,
     In (k, v) (parseParkingStatus clock data) ->
     st_id v = k /\ truthy k = true
     /\ exists r, In r (statusRecords data) /\ referenceId r = Some k)
  /\ (forall now statusMap statusRecord,
        truthy_opt (referenceId statusRecord) = false ->
        statusStep now statusMap statusRecord = statusMap).
Proof.
  split; [|exact statusStep_without_id].
  intros k v Hin.
  pose (Q := fun k => exists r,
                 In r (statusRecords data) /\ referenceId r = Some k).
  assert (H : Forall (entry_ok Q) (parseParkingStatus clock data)).
  { apply forEachStatus_ok; [|constructor].
    intros r k' Hr Hk. exists r. split; assumption. }
  rewrite Forall_forall in H. apply (H (k, v) Hin).
Qed.

Lemma map_get_put_other (m : StatusMap) (k k' : value)
  (v : NDWParkingStatus) :
  sameValueZero k k' = false ->
  map_get (map_put m k v) k' = map_get m k'.
Proof.
  intros Hk. induction m as [|[k1 v1] m IH]; simpl.
  - rewrite Hk. reflexivity.
  - destruct (sameValueZero k1 k) eqn:E1; simpl.
    + destruct (sameValueZero k1 k') eqn:E2; [|reflexivity].
      rewrite sameValueZero_sym in E1.
      rewrite (sameValueZero_trans _ _ _ E1 E2) in Hk. discriminate Hk.
    + rewrite IH. reflexivity.
Qed.

Lemma enrich_facilities (m : StatusMap) (fs : list NDWParkingFacility) :
  map facility (enrich m fs) = fs.
Proof.
  unfold enrich. rewrite map_map. simpl. apply map_id.
Qed.

(** C4, amended.  The merge returns exactly the static facilities, in
    their order, each with the live status found under its own id, so a
    dynamic record never creates a facility; a status record whose id
    matches no facility is dropped: handling it changes nothing in the
    merged result, and nothing is kept for a later pass. *)
Theorem live_status_merge_keeps_facilities (statusMap : StatusMap)
  (facilities : list NDWParkingFacility) :
  map facility (enrich statusMap facilities) = facilities
  /\ (forall e, In e (enrich statusMap facilities) ->
        liveStatus e = map_get statusMap (id (facility e)))
  /\ (forall clock now table statusDoc,
        map facility
          (responseFacilities (GET clock now (Some table) (Some statusDoc)))
        = parseParkingTable table)
  /\ (forall now statusRecord,
        (forall k f, referenceId statusRecord = Some k -> In f facilities ->
                     sameValueZero k (id f) = false) ->
        enrich (statusStep now statusMap statusRecord) facilities
        = enrich statusMap facilities).
Proof.
  split; [apply enrich_facilities | split; [|split]].
  - intros e He. unfold enrich in He. apply in_map_iff in He.
    destruct He as [f [<- _]]. reflexivity.
  - intros. simpl. apply enrich_facilities.
  - intros now r Hr. unfold statusStep.
    destruct (referenceId r) as [k|] eqn:Ek; [|reflexivity].
    destruct (truthy k) eqn:Tk; [|reflexivity].
    rewrite map_set_truthy by exact Tk.
    unfold enrich. apply map_ext_in. intros f Hf. f_equal.
    apply map_get_put_other. apply (Hr k f eq_refl Hf).
Qed.

End StatusFacts.

(** Of two status records, one with the reference id NL-12_421 and one
    without reference, only the first is stored, under its id. *)
Lemma status_map_keys_are_ids_witness :
  let data :=
    Samples.statusOf
      [Samples.statusRecord "NL-12_421" 12;
       Samples.statusRecord_without_reference] in
  map fst (Ndw.parseParkingStatus Samples.clock data)
  = [Xml.Str "NL-12_421"]
  /\ Forall (fun e => Ndw.st_id (snd e) = fst e)
           (Ndw.parseParkingStatus Samples.clock data)
  /\ Ndw.statusStep "2025-11-17T23:30:00Z" []
       Samples.statusRecord_without_reference = [].
Proof.
  intros data. split; [reflexivity | split].
  - apply Forall_forall. intros [k v] Hin.
    destruct (status_map_keys_are_ids Samples.clock data) as [H _].
    apply (H k v Hin).
  - destruct (status_map_keys_are_ids Samples.clock data) as [_ H].
    apply H. reflexivity.
Defined.

(** The status of NL-12_421 arrives in a pass whose table does not have
    the facility, and the facility arrives in the next pass, whose status
    document no longer has the record: the status of the first pass is
    not joined in the second, it was dropped and not held for a retry. *)
Lemma unmatched_status_is_not_retried :
  map fst
    (Ndw.parseParkingStatus Samples.clock
       (Samples.statusOf [Samples.statusRecord "NL-12_421" 12]))
  = [Xml.Str "NL-12_421"]
  /\ map (fun r => map (fun e => (Ndw.id (Ndw.facility e), Ndw.liveStatus e))
                     (MergeSpec.responseFacilities r))
       (MergeSpec.passes Samples.clock "2025-11-17T23:31:00Z"
          [(Some (Samples.tableOf []),
            Some (Samples.statusOf [Samples.statusRecord "NL-12_421" 12]));
           (Some (Samples.tableOf [Samples.record_NL_12_421]),
            Some (Samples.statusOf []))])
     = [[]; [(Xml.Str "NL-12_421", None)]].
Proof. split; reflexivity. Qed.

(** A status record for NL-99 beside the facility NL-12_421 changes
    nothing in the merged result. *)
Lemma live_status_merge_keeps_facilities_witness :
  let facilities :=
    Ndw.parseParkingTable (Samples.tableOf [Samples.record_NL_12_421]) in
  Ndw.enrich
    (Ndw.statusStep "2025-11-17T23:30:00Z" []
       (Samples.statusRecord "NL-99" 7))
    facilities
  = Ndw.enrich [] facilities.
Proof.
  intros facilities.
  destruct (live_status_merge_keeps_facilities [] facilities)
    as [_ [_ [_ H]]].
  apply H. intros k f [= <-] [<-|[]]. reflexivity.
Defined.

(** ** The Zenodo route *)

Section CsvFacts.

Import Zenodo CsvSpec.

Lemma parseRow_unparseable (cols : Columns) (i : nat) (line : string) :
  unparseable cols line = true -> parseRow cols i line = Returned None.
Proof.
  unfold unparseable, parseRow. intros H.
  apply andb_true_iff in H. destruct H as [Ht Hi]. rewrite Ht. simpl negb.
  cbv iota.
  destruct (rowCoordinates cols
              (splitFields (JS.trim line) EmptyString false []))
    as [[a|] [b|]]; simpl in Hi |- *; try reflexivity.
  rewrite Hi. reflexivity.
Qed.

Lemma parseRows_skip (cols : Columns) (i : nat) (line : string)
  (rest : list string) (facilities : list ZenodoFacility) :
  parseRow cols i line = Returned None ->
  parseRows cols i (line :: rest) facilities
  = parseRows cols (S i) rest facilities.
Proof. intros H. simpl. rewrite H. reflexivity. Qed.

Lemma parseRow_located (cols : Columns) (i : nat) (line : string)
  (f : ZenodoFacility) :
  parseRow cols i line = Returned (Some f) -> located f.
Proof.
  unfold parseRow.
  destruct (negb (JS.truthy_string (JS.trim line))); [discriminate|].
  destruct (rowCoordinates cols
              (splitFields (JS.trim line) EmptyString false []))
    as [[a|] [b|]]; try discriminate.
  destruct (PrimFloat.is_nan a || PrimFloat.is_nan b) eqn:E; [discriminate|].
  apply orb_false_iff in E.
  destruct (match countryIndex cols with
            | Some k => fieldText _ k
            | None => Returned "Unknown"
            end) as [country|]; [|discriminate].
  destruct (match categoryIndex cols with
            | Some k => fieldText _ k
            | None => Returned "parking"
            end) as [category|]; [|discriminate].
  simpl bind.
  destruct (match nameIndex cols with
            | Some k => fieldText _ k
            | None => _
            end) as [name|]; [|discriminate].
  simpl. intros [= <-]. exact E.
Qed.

Lemma parseRows_located (cols : Columns) (lines : list string) :
  forall (i : nat) (facilities result : list ZenodoFacility),
    Forall located facilities ->
    parseRows cols i lines facilities = Returned result ->
    Forall located result.
Proof.
  induction lines as [|line lines IH]; intros i facilities result Hf; simpl.
  - intros [= <-]. exact Hf.
  - destruct (parseRow cols i line) as [[f|]|] eqn:E; simpl;
      [| apply IH; exact Hf | discriminate].
    apply IH. apply Forall_app. split; [exact Hf|].
    constructor; [|constructor]. apply (parseRow_located _ _ _ _ E).
Qed.

(** C6, amended.  A row whose latitude or longitude does not parse to a
    number is left out of the output and the loop goes on with the next
    row, so every facility of the output has numbers as coordinates; the
    result is the list of facilities alone, no count of the rows left out
    is kept. *)
Theorem unparseable_rows_are_skipped (cols : Columns) (i : nat)
  (line : string) (rest : list string)
  (facilities : list ZenodoFacility) :
  unparseable cols line = true ->
  parseRow cols i line = Returned None
  /\ parseRows cols i (line :: rest) facilities
     = parseRows cols (S i) rest facilities
  /\ (forall toLowerCase csvText result,
        parseCSV toLowerCase csvText = Returned result ->
        Forall located result).
Proof.
  intros H. pose proof (parseRow_unparseable cols i line H) as Hrow.
  split; [exact Hrow | split; [apply parseRows_skip, Hrow|]].
  intros toLowerCase csvText result. unfold parseCSV.
  destruct (JS.split newline (JS.trim csvText)) as [|header rows].
  - intros [= <-]. constructor.
  - apply parseRows_located. constructor.
Qed.

End CsvFacts.

(** The row [north;east] under the header [lat;lon] is skipped. *)
Lemma unparseable_rows_are_skipped_witness :
  let cols := Zenodo.parseHeader JS.asciiLowerCase "lat;lon" in
  CsvSpec.unparseable cols "north;east" = true
  /\ Zenodo.parseRow cols 2 "north;east" = Zenodo.Returned None
  /\ Zenodo.parseRows cols 2 ["north;east"; "52.25;4.75"] []
     = Zenodo.parseRows cols 3 ["52.25;4.75"] [].
Proof.
  intros cols. split; [reflexivity|].
  destruct (unparseable_rows_are_skipped cols 2 "north;east"
              ["52.25;4.75"] [] eq_refl) as [H1 [H2 _]].
  split; [exact H1 | exact H2].
Defined.

(** The text with one row left out and the text without that row give the
    same result, one facility: the result tells nothing about the number
    of rows left out, there is no error counter. *)
Lemma dropped_rows_are_not_counted :
  CsvSpec.unparseableRows JS.asciiLowerCase Samples.csv_with_bad_row = 1
  /\ CsvSpec.unparseableRows JS.asciiLowerCase Samples.csv_without_bad_row = 0
  /\ Zenodo.parseCSV JS.asciiLowerCase Samples.csv_with_bad_row
     = Zenodo.parseCSV JS.asciiLowerCase Samples.csv_without_bad_row
  /\ Zenodo.parseCSV JS.asciiLowerCase Samples.csv_without_bad_row
     = Zenodo.Returned
         [Zenodo.mkFacility "zenodo-Unknown-1" "Unknown-1" "parking"
            (Zenodo.mkLocation 52.25 4.75) "Unknown" None
            "Zenodo (Fraunhofer ISI)"].
Proof. repeat split; reflexivity. Qed.

(** A row with good coordinates that stops before the country column
    makes [parseCSV] throw. *)
Lemma short_row_throws :
  Zenodo.parseCSV JS.asciiLowerCase Samples.csv_with_short_row
  = Zenodo.TypeError.
Proof. reflexivity. Qed.

(** * Further properties *)

(** ** Comparisons with NaN *)

Section NaNFacts.




Lemma number_or_zero_not_nan (n : option float) :
  PrimFloat.is_nan (Xml.number_or_zero n) = false.
Proof.
  destruct n as [x|]; simpl; [|reflexivity].
  unfold JS.truthy_number.
  destruct (PrimFloat.is_zero x); simpl; [reflexivity|].
  destruct (PrimFloat.is_nan x) eqn:E; simpl; [reflexivity | exact E].
Qed.

End NaNFacts.

(** ** The facilities route, further *)

Section FacilitiesMore.

Import Facilities QuerySpec Notions.

Variable toLowerCase : string -> string.

Lemma typed_transform (rawData : list EnrichedFeature) :
  Forall typed (map transform rawData).
Proof.
  apply Forall_forall. intros f Hf. apply in_map_iff in Hf.
  destruct Hf as [raw [<- _]]. unfold typed, transform; simpl.
  unfold deriveFacilityType.
  destruct (classification raw) as [[] [] [] c]; simpl; auto.
Qed.

Lemma typed_counts (l : list EnrichedFeature) :
  Forall typed l ->
  List.length (filter (isType "truck_parking") l)
  + List.length (filter (isType "service_area") l)
  + List.length (filter (isType "rest_area") l)
  = List.length l.
Proof.
  induction 1 as [|f l Hf _ IH]; [reflexivity|].
  unfold typed in Hf. simpl in Hf.
  assert (Ht : forall t, isType t f
                         = match facility_type f with
                           | Some t' => String.eqb t' t
                           | None => false
                           end) by reflexivity.
  cbn [filter]. rewrite !Ht.
  destruct Hf as [E|[E|[E|[]]]]; rewrite <- E; simpl; lia.
Qed.

Lemma applyFilters_incl (req : Request) (data : list EnrichedFeature) :
  incl (applyFilters toLowerCase req data) data.
Proof.
  rewrite applyFilters_spec. intros f Hf. apply filter_In in Hf. apply Hf.
Qed.

Lemma respond_statsAddUp (req : Request) (data : list EnrichedFeature) :
  Forall typed data -> statsAddUp (Json (respond toLowerCase req data)).
Proof.
  intros Ht. simpl. split; [reflexivity|].
  apply typed_counts. rewrite Forall_forall in *. intros f Hf.
  apply Ht. apply (applyFilters_incl req data f Hf).
Qed.

Lemma serve_statsAddUp
  (requests : list (option (list EnrichedFeature) * Request)) :
  forall cache : Cache,
    (forall data, cache = Some data -> Forall typed data) ->
    Forall statsAddUp (serve toLowerCase cache requests).
Proof.
  induction requests as [|[file req] rest IH]; intros cache Hc; simpl.
  - constructor.
  - unfold GET, loadAndTransformData.
    destruct cache as [data|]; [|destruct file as [rawData|]];
      try match goal with
          | |- context [throws ?lc ?r ?d] => destruct (throws lc r d)
          end;
      constructor; try apply IH; try exact Hc; try exact I;
      try (intros data [= <-]; apply typed_transform).
    + apply respond_statsAddUp. apply Hc. reflexivity.
    + apply respond_statsAddUp. apply typed_transform.
Qed.

(** X1.  In every success response that the handler gives, starting with
    an empty cache, the counts of truck parkings, service areas and rest
    areas add up to [total], and [stats.total] is [total]. *)
Theorem stats_add_up_to_total
  (requests : list (option (list EnrichedFeature) * Request)) :
  Forall statsAddUp (serve toLowerCase None requests).
Proof.
  apply serve_statsAddUp. intros data [=].
Qed.

Lemma firstn_min_length {A : Type} (n : nat) (l : list A) :
  firstn (Nat.min n (List.length l)) l = firstn n l.
Proof.
  destruct (Nat.le_gt_cases n (List.length l)) as [H|H].
  - rewrite Nat.min_l by exact H. reflexivity.
  - rewrite Nat.min_r by lia. rewrite !firstn_all2 by lia. reflexivity.
Qed.

Lemma slice_first {A : Type} (l : list A) (n : nat) (offset limit : float) :
  JSArray.toIntegerOrInfinity offset = JSArray.Fin 0 ->
  JSArray.toIntegerOrInfinity (PrimFloat.add offset limit)
  = JSArray.Fin (Z.of_nat n) ->
  JSArray.slice l offset (PrimFloat.add offset limit) = firstn n l.
Proof.
  intros H0 Hn. unfold JSArray.slice, JSArray.relativeIndex.
  rewrite H0, Hn. simpl (0 <? 0)%Z. cbv iota.
  replace (Z.of_nat n <? 0)%Z with false by (symmetry; apply Z.ltb_ge; lia).
  replace (Z.to_nat (Z.min 0 (Z.of_nat (List.length l)))) with 0 by lia.
  replace (Z.to_nat (Z.min (Z.of_nat n) (Z.of_nat (List.length l))))
    with (Nat.min n (List.length l)) by lia.
  rewrite Nat.sub_0_r. simpl skipn. apply firstn_min_length.
Qed.

Lemma page_of_limit (req : Request) (data : list EnrichedFeature)
  (limit : option string) (n : nat) :
  JSArray.toIntegerOrInfinity
    (PrimFloat.add (JS.parseInt "0") (JS.parseInt (string_or limit "1000")))
  = JSArray.Fin (Z.of_nat n) ->
  facilities (respond toLowerCase (withPagination req limit None) data)
  = firstn n (filter (passesAllFilters toLowerCase req) data).
Proof.
  intros Hn. unfold respond. cbn [facilities].
  rewrite applyFilters_pagination, applyFilters_spec.
  apply (slice_first _ n); [reflexivity | exact Hn].
Qed.

(** X2.  Without [limit] and [offset] the response holds the first 1000
    facilities that pass the filters, and all of them when there are at
    most 1000; with the [limit=2000] of the map component it holds the
    first 2000. *)
Theorem default_page_is_the_first_thousand (req : Request)
  (data : list EnrichedFeature) :
  let selected := filter (passesAllFilters toLowerCase req) data in
  facilities (respond toLowerCase (withPagination req None None) data)
  = firstn 1000 selected
  /\ (List.length selected <= 1000 ->
      facilities (respond toLowerCase (withPagination req None None) data)
      = selected)
  /\ facilities
       (respond toLowerCase (withPagination req (Some "2000") None) data)
     = firstn 2000 selected.
Proof.
  intros selected. split; [|split].
  - apply (page_of_limit req data None 1000). reflexivity.
  - intros Hle. rewrite (page_of_limit req data None 1000) by reflexivity.
    apply firstn_all2. exact Hle.
  - apply (page_of_limit req data (Some "2000") 2000). reflexivity.
Qed.







End FacilitiesMore.

(** ** The map component and the handler *)

Section ClientFacts.

Import Facilities QuerySpec Notions MapClient.

Variable toLowerCase : string -> string.






End ClientFacts.

Lemma default_page_is_the_first_thousand_witness :
  Facilities.facilities
    (Facilities.respond JS.asciiLowerCase
       (QuerySpec.withPagination Samples.noParameters None None)
       (map Facilities.transform Samples.rawFeatures))
  = filter (QuerySpec.passesAllFilters JS.asciiLowerCase Samples.noParameters)
      (map Facilities.transform Samples.rawFeatures).
Proof.
  destruct (default_page_is_the_first_thousand JS.asciiLowerCase
              Samples.noParameters
              (map Facilities.transform Samples.rawFeatures)) as [_ [H _]].
  apply H. vm_compute. lia.
Defined.




(** ** The NDW route, further *)

Section NdwMore.

Import Xml Ndw MergeSpec Notions.

Lemma extractText_truthy (node : option value) (v : value) :
  extractText node = Some v -> truthy v = true.
Proof.
  unfold extractText. destruct node as [n|]; [|discriminate].
  destruct (truthy n) eqn:Tn; simpl; [|discriminate].
  destruct n; try (intros [= <-]; exact Tn);
    destruct (truthy_opt (get "#text" _)) eqn:T1;
    try (intros H; rewrite H in T1; exact T1);
    destruct (truthy_opt (value0_text _)) eqn:T2;
    try (intros H; rewrite H in T2; exact T2); discriminate.
Qed.

Lemma or_default_truthy (a : option value) (d : value) :
  truthy (or_default a d) = true \/ or_default a d = d.
Proof.
  unfold or_default. destruct a as [v|]; [|right; reflexivity].
  destruct (truthy v) eqn:T; [left; exact T | right; reflexivity].
Qed.

(** X6.  The id of a facility is the [@_id] of its record or the empty
    text, and its name is never empty when the id is not: a facility
    without usable [parkingName] is named by its id. *)
Theorem facility_name_falls_back_to_id (data : value)
  (f : NDWParkingFacility) :
  In f (parseParkingTable data) ->
  (truthy (id f) = true \/ id f = Str EmptyString)
  /\ (truthy (name f) = true \/ name f = id f)
  /\ (truthy (id f) = true -> truthy (name f) = true).
Proof.
  intros Hf. unfold parseParkingTable in Hf. apply in_map_iff in Hf.
  destruct Hf as [record [<- _]]. unfold parseRecord. cbn [id name].
  split; [apply or_default_truthy | split; [apply or_default_truthy|]].
  intros Hid.
  destruct (or_default_truthy
              (extractText
                 (oget "value" (oget "values" (get "parkingName" record))))
              (or_default (get "@_id" record) (Str EmptyString)))
    as [H|H]; [exact H | rewrite H; exact Hid].
Qed.

Lemma filter_truthy_all (l : list (option value)) :
  Forall (fun v => truthy v = true) (filter_truthy l).
Proof.
  induction l as [|[v|] l IH]; simpl; [constructor| |exact IH].
  destruct (truthy v) eqn:T; [constructor; assumption | exact IH].
Qed.

Lemma non_empty_some {A : Type} (l l' : list A) :
  non_empty l = Some l' -> l' = l /\ l' <> [].
Proof.
  destruct l; simpl; [discriminate|]. intros [= <-].
  split; [reflexivity | discriminate].
Qed.

Lemma map_put_values (P : NDWParkingStatus -> Prop) (m : StatusMap)
  (k : value) (v : NDWParkingStatus) :
  Forall (fun e => P (snd e)) m -> P v ->
  Forall (fun e => P (snd e)) (map_put m k v).
Proof.
  intros Hm Hv. induction Hm as [|[k' v'] m He Hm IH]; simpl.
  - constructor; [exact Hv | constructor].
  - destruct (sameValueZero k' k); constructor; assumption.
Qed.

Lemma forEachStatus_values (P : NDWParkingStatus -> Prop)
  (clock : nat -> string) (records : list value) :
  (forall now id r, P (parseStatusRecord now id r)) ->
  forall (i : nat) (m : StatusMap),
    Forall (fun e => P (snd e)) m ->
    Forall (fun e => P (snd e)) (forEachStatus clock i records m).
Proof.
  intros HP. induction records as [|r records IH]; intros i m Hm; simpl.
  - exact Hm.
  - apply IH. unfold statusStep.
    destruct (referenceId r) as [k|]; [|exact Hm].
    destruct (truthy k); [|exact Hm].
    unfold map_set. apply map_put_values; [exact Hm | apply HP].
Qed.

(** X7.  An optional list is absent rather than empty: the equipment of
    a facility, when present, has at least one item and no item is an
    empty text, and the grouped status of a stored status, when present,
    has at least one group. *)
Theorem optional_lists_are_absent_not_empty (clock : nat -> string)
  (table statusDoc : value) :
  (forall f, In f (parseParkingTable table) ->
     absentOrNonEmpty (facilities f)
     /\ forall l, facilities f = Some l ->
                  Forall (fun v => truthy v = true) l)
  /\ (forall k s, In (k, s) (parseParkingStatus clock statusDoc) ->
        absentOrNonEmpty (groupedStatus s)).
Proof.
  split.
  - intros f Hf. unfold parseParkingTable in Hf. apply in_map_iff in Hf.
    destruct Hf as [record [<- _]]. unfold parseRecord. cbn [facilities].
    split.
    + intros H. apply non_empty_some in H. destruct H as [_ H].
      apply H. reflexivity.
    + intros l H. apply non_empty_some in H. destruct H as [-> _].
      apply filter_truthy_all.
  - intros k s Hin.
    assert (H : Forall (fun e => absentOrNonEmpty (groupedStatus (snd e)))
                  (parseParkingStatus clock statusDoc)).
    { apply (forEachStatus_values
               (fun s => absentOrNonEmpty (groupedStatus s)));
        [|constructor].
      intros now id r. unfold parseStatusRecord. cbn [groupedStatus].
      intros H. apply non_empty_some in H. destruct H as [_ H].
      apply H. reflexivity. }
    rewrite Forall_forall in H. apply (H (k, s) Hin).
Qed.

(** X8.  No number that the adapters compute with a fallback to 0 is
    [NaN]: the latitude and the longitude of every facility, and the
    vacant spaces, occupied spaces and occupancy of every stored status
    and of each of its groups. *)
Theorem coordinates_and_counts_are_numbers (clock : nat -> string)
  (table statusDoc : value) :
  (forall f, In f (parseParkingTable table) ->
     PrimFloat.is_nan (latitude (location f)) = false
     /\ PrimFloat.is_nan (longitude (location f)) = false)
  /\ (forall k s, In (k, s) (parseParkingStatus clock statusDoc) ->
        statusNumbersOk s
        /\ forall groups, groupedStatus s = Some groups ->
             Forall (fun g =>
                       PrimFloat.is_nan (g_vacantSpaces g) = false
                       /\ PrimFloat.is_nan (g_occupiedSpaces g) = false
                       /\ PrimFloat.is_nan (g_occupancy g) = false)
                    groups).
Proof.
  split.
  - intros f Hf. unfold parseParkingTable in Hf. apply in_map_iff in Hf.
    destruct Hf as [record [<- _]]. unfold parseRecord.
    cbn [location latitude longitude].
    split; apply number_or_zero_not_nan.
  - intros k s Hin.
    pose (P := fun s =>
      statusNumbersOk s
      /\ forall groups, groupedStatus s = Some groups ->
           Forall (fun g =>
                     PrimFloat.is_nan (g_vacantSpaces g) = false
                     /\ PrimFloat.is_nan (g_occupiedSpaces g) = false
                     /\ PrimFloat.is_nan (g_occupancy g) = false)
                  groups).
    assert (H : Forall (fun e => P (snd e))
                  (parseParkingStatus clock statusDoc)).
    { apply (forEachStatus_values P); [|constructor].
      intros now id r. unfold P, parseStatusRecord, statusNumbersOk.
      cbn [vacantSpaces occupiedSpaces occupancy groupedStatus].
      split; [repeat split; apply number_or_zero_not_nan|].
      intros groups H. apply non_empty_some in H. destruct H as [-> _].
      apply Forall_forall. intros g Hg. apply in_map_iff in Hg.
      destruct Hg as [group [<- _]]. unfold parseGroup.
      cbn [g_vacantSpaces g_occupiedSpaces g_occupancy].
      repeat split; apply number_or_zero_not_nan. }
    rewrite Forall_forall in H. apply (H (k, s) Hin).
Qed.

End NdwMore.

(** ** The status map as a map *)

Section StatusMapFacts.

Import Xml Ndw MergeSpec Notions.

Lemma sameValueZero_refl (k : value) :
  primitive k = true -> sameValueZero k k = true.
Proof.
  destruct k; simpl; try discriminate; intros _.
  - apply String.eqb_refl.
  - apply orb_true_iff. left. apply FloatAxioms.Leibniz.eqb_spec.
    reflexivity.
  - apply Bool.eqb_reflx.
Qed.

Lemma map_get_put_same (m : StatusMap) (k : value) (v : NDWParkingStatus) :
  sameValueZero k k = true -> map_get (map_put m k v) k = Some v.
Proof.
  intros Hk. induction m as [|[k1 v1] m IH]; simpl.
  - rewrite Hk. reflexivity.
  - destruct (sameValueZero k1 k) eqn:E; simpl; rewrite E;
      [reflexivity | exact IH].
Qed.

Lemma map_get_some (m : StatusMap) (k : value) (v : NDWParkingStatus) :
  map_get m k = Some v ->
  exists k', In (k', v) m /\ sameValueZero k' k = true.
Proof.
  induction m as [|[k1 v1] m IH]; simpl; [discriminate|].
  destruct (sameValueZero k1 k) eqn:E.
  - intros [= <-]. exists k1. split; [left; reflexivity | exact E].
  - intros H. destruct (IH H) as [k' [Hin Hk']].
    exists k'. split; [right; exact Hin | exact Hk'].
Qed.

Lemma map_put_keys (m : StatusMap) (k : value) (v : NDWParkingStatus) :
  map fst (map_put m k v)
  = if existsb (fun k' => sameValueZero k' k) (map fst m)
    then map fst m else map fst m ++ [k].
Proof.
  induction m as [|[k1 v1] m IH]; simpl; [reflexivity|].
  destruct (sameValueZero k1 k); simpl; [reflexivity|].
  rewrite IH. destruct (existsb _ (map fst m)); reflexivity.
Qed.

Lemma distinctKeys_snoc (keys : list value) (k : value) :
  distinctKeys keys ->
  Forall (fun k' => sameValueZero k' k = false) keys ->
  distinctKeys (keys ++ [k]).
Proof.
  unfold distinctKeys. intros Hd Hk.
  induction Hd as [|a l Ha Hl IH]; simpl.
  - constructor; constructor.
  - inversion Hk as [|a' l' Hak Hlk]; subst. constructor.
    + apply Forall_app. split; [exact Ha|]. constructor; [exact Hak|].
      constructor.
    + apply IH. exact Hlk.
Qed.

Lemma map_put_distinct (m : StatusMap) (k : value) (v : NDWParkingStatus) :
  distinctKeys (map fst m) -> distinctKeys (map fst (map_put m k v)).
Proof.
  intros Hd. rewrite map_put_keys.
  destruct (existsb (fun k' => sameValueZero k' k) (map fst m)) eqn:E;
    [exact Hd|].
  apply distinctKeys_snoc; [exact Hd|].
  apply Forall_forall. intros k' Hk'.
  destruct (sameValueZero k' k) eqn:E'; [|reflexivity].
  assert (Ht : existsb (fun k' => sameValueZero k' k) (map fst m) = true)
    by (apply existsb_exists; exists k'; split; assumption).
  rewrite Ht in E. discriminate E.
Qed.

Lemma map_put_length (m : StatusMap) (k : value) (v : NDWParkingStatus) :
  List.length (map_put m k v) <= S (List.length m).
Proof.
  induction m as [|[k1 v1] m IH]; simpl; [lia|].
  destruct (sameValueZero k1 k); simpl; lia.
Qed.

Lemma forEachStatus_distinct (clock : nat -> string)
  (records : list value) :
  forall (i : nat) (m : StatusMap),
    distinctKeys (map fst m) ->
    distinctKeys (map fst (forEachStatus clock i records m))
    /\ List.length (forEachStatus clock i records m)
       <= List.length m + List.length records.
Proof.
  induction records as [|r records IH]; intros i m Hm; simpl.
  - split; [exact Hm | lia].
  - assert (Hstep :
      distinctKeys (map fst (statusStep (clock i) m r))
      /\ List.length (statusStep (clock i) m r) <= S (List.length m)).
    { unfold statusStep. destruct (referenceId r) as [k|]; [|split; auto].
      destruct (truthy k); [|split; auto].
      unfold map_set. split; [apply map_put_distinct, Hm|].
      apply map_put_length. }
    destruct Hstep as [Hd Hl].
    destruct (IH (S i) _ Hd) as [Hd' Hl']. split; [exact Hd' | lia].
Qed.

(** X9.  The status map holds at most one status per id: no two of its
    keys are the same key, and it has at most as many entries as the
    document has status records. *)
Theorem status_map_has_one_entry_per_id (clock : nat -> string)
  (data : value) :
  distinctKeys (map fst (parseParkingStatus clock data))
  /\ List.length (parseParkingStatus clock data)
     <= List.length (statusRecords data).
Proof.
  destruct (forEachStatus_distinct clock (statusRecords data) 0 [])
    as [Hd Hl]; [constructor|].
  split; [exact Hd | exact Hl].
Qed.

Lemma forEachStatus_app (clock : nat -> string) (a b : list value) :
  forall (i : nat) (m : StatusMap),
    forEachStatus clock i (a ++ b) m
    = forEachStatus clock (i + List.length a) b (forEachStatus clock i a m).
Proof.
  induction a as [|r a IH]; intros i m; simpl.
  - rewrite Nat.add_0_r. reflexivity.
  - rewrite IH. rewrite Nat.add_succ_comm. reflexivity.
Qed.

Lemma forEachStatus_other_ids (clock : nat -> string) (k : value)
  (records : list value) :
  (forall r k', In r records -> referenceId r = Some k' ->
                sameValueZero k' k = false) ->
  forall (i : nat) (m : StatusMap),
    map_get (forEachStatus clock i records m) k = map_get m k.
Proof.
  induction records as [|r records IH]; intros Hother i m; simpl.
  - reflexivity.
  - rewrite IH by (intros r' k' Hin; apply Hother; right; exact Hin).
    unfold statusStep. destruct (referenceId r) as [k'|] eqn:Er;
      [|reflexivity].
    destruct (truthy k') eqn:Tk; [|reflexivity].
    rewrite map_set_truthy by exact Tk.
    apply map_get_put_other. apply (Hother r k'); [left; reflexivity|].
    exact Er.
Qed.

(** X10.  The last status record of an id wins: when a record with a
    truthy string, number or boolean as reference id is followed only by
    records of other ids, the status stored under that id is the one
    parsed from this record, whatever records came before it. *)
Theorem last_status_record_of_an_id_wins (clock : nat -> string)
  (data : value) (before after : list value) (r k : value) :
  statusRecords data = before ++ r :: after ->
  referenceId r = Some k ->
  truthy k = true ->
  primitive k = true ->
  (forall r' k', In r' after -> referenceId r' = Some k' ->
                 sameValueZero k' k = false) ->
  map_get (parseParkingStatus clock data) k
  = Some (parseStatusRecord (clock (List.length before)) k r).
Proof.
  intros Hrecords Hid Ht Hp Hafter. unfold parseParkingStatus.
  rewrite Hrecords, forEachStatus_app. simpl.
  rewrite forEachStatus_other_ids by exact Hafter.
  unfold statusStep. rewrite Hid, Ht.
  rewrite map_set_truthy by exact Ht.
  apply map_get_put_same. apply sameValueZero_refl. exact Hp.
Qed.

(** X11.  A live status is never attached to another facility: in every
    response, the status of a facility carries the id of that facility,
    and a facility whose id is empty has no status. *)
Theorem live_status_carries_the_facility_id (clock : nat -> string)
  (now : string) (table statusDoc : value) (e : NDWEnrichedFacility)
  (s : NDWParkingStatus) :
  In e (responseFacilities (GET clock now (Some table) (Some statusDoc))) ->
  liveStatus e = Some s ->
  st_id s = id (facility e) /\ truthy (id (facility e)) = true.
Proof.
  simpl. unfold enrich. intros He Hs. apply in_map_iff in He.
  destruct He as [f [<- _]]. cbn [liveStatus facility] in *.
  apply map_get_some in Hs. destruct Hs as [k [Hin Hk]].
  assert (H : Forall (entry_ok (fun _ => True))
                (parseParkingStatus clock statusDoc))
    by (apply forEachStatus_ok; [intros; exact I | constructor]).
  rewrite Forall_forall in H. destruct (H (k, s) Hin) as [Hid [Ht _]].
  simpl in Hid, Ht. rewrite sameValueZero_sym in Hk.
  apply sameValueZero_truthy_eq in Hk; [|exact Ht].
  rewrite Hk. split; [exact Hid | exact Ht].
Qed.

End StatusMapFacts.

Lemma facility_name_falls_back_to_id_witness :
  let f := Ndw.parseRecord Samples.record_NL_12_421 in
  Ndw.id f = Xml.Str "NL-12_421" /\ Xml.truthy (Ndw.name f) = true.
Proof.
  intros f. split; [reflexivity|].
  apply (facility_name_falls_back_to_id
           (Samples.tableOf [Samples.record_NL_12_421]) f);
    [left; reflexivity | reflexivity].
Defined.

(** Two records for NL-12_421, with 12 and then 3 vacant spaces, and one
    for NL-99 after them: the status under NL-12_421 has 3. *)
Lemma last_status_record_of_an_id_wins_witness :
  option_map Ndw.vacantSpaces
    (Ndw.map_get
       (Ndw.parseParkingStatus Samples.clock
          (Samples.statusOf
             [Samples.statusRecord "NL-12_421" 12;
              Samples.statusRecord "NL-12_421" 3;
              Samples.statusRecord "NL-99" 7]))
       (Xml.Str "NL-12_421"))
  = Some 3%float.
Proof.
  rewrite (last_status_record_of_an_id_wins Samples.clock
             (Samples.statusOf
                [Samples.statusRecord "NL-12_421" 12;
                 Samples.statusRecord "NL-12_421" 3;
                 Samples.statusRecord "NL-99" 7])
             [Samples.statusRecord "NL-12_421" 12]
             [Samples.statusRecord "NL-99" 7]
             (Samples.statusRecord "NL-12_421" 3)
             (Xml.Str "NL-12_421")); try reflexivity.
  intros r' k' [<-|[]] [= <-]. reflexivity.
Defined.

Lemma live_status_carries_the_facility_id_witness :
  Forall (fun e =>
            option_map Ndw.st_id (Ndw.liveStatus e)
            = Some (Ndw.id (Ndw.facility e)))
    (MergeSpec.responseFacilities
       (Ndw.GET Samples.clock "2025-11-17T23:31:00Z"
          (Some (Samples.tableOf [Samples.record_NL_12_421]))
          (Some (Samples.statusOf [Samples.statusRecord "NL-12_421" 12])))).
Proof.
  apply Forall_forall. intros e He.
  destruct (Ndw.liveStatus e) as [s|] eqn:Es.
  - destruct (live_status_carries_the_facility_id Samples.clock
                "2025-11-17T23:31:00Z"
                (Samples.tableOf [Samples.record_NL_12_421])
                (Samples.statusOf [Samples.statusRecord "NL-12_421" 12])
                e s He Es) as [H _].
    simpl. rewrite H. reflexivity.
  - destruct He as [<-|[]]. discriminate Es.
Defined.

Lemma optional_lists_are_absent_not_empty_witness :
  Notions.absentOrNonEmpty
    (Ndw.facilities (Ndw.parseRecord Samples.record_NL_12_421)).
Proof.
  destruct (optional_lists_are_absent_not_empty Samples.clock
              (Samples.tableOf [Samples.record_NL_12_421])
              (Samples.statusOf [])) as [H _].
  apply (H (Ndw.parseRecord Samples.record_NL_12_421)). left. reflexivity.
Defined.

Lemma coordinates_and_counts_are_numbers_witness :
  PrimFloat.is_nan
    (Ndw.latitude
       (Ndw.location (Ndw.parseRecord Samples.record_without_location)))
  = false.
Proof.
  destruct (coordinates_and_counts_are_numbers Samples.clock
              (Samples.tableOf [Samples.record_without_location])
              (Samples.statusOf [])) as [H _].
  apply (H (Ndw.parseRecord Samples.record_without_location)).
  left. reflexivity.
Defined.

(** ** The EU route, further *)

Section EuFacts.

Import Xml EuParking EuRoute Notions.

Variable toString : value -> string.

Lemma startsWith_app (p s : string) : JS.startsWith p (p ++ s) = true.
Proof.
  induction p as [|c p IH]; simpl; [reflexivity|].
  rewrite Ascii.eqb_refl. exact IH.
Qed.

Lemma append_assoc (a b c : string) :
  ((a ++ b) ++ c = a ++ (b ++ c))%string.
Proof.
  induction a as [|x a IH]; simpl; [reflexivity|]. rewrite IH. reflexivity.
Qed.

(** X12.  A facility of the EU adapter has a capacity only when its
    total of spaces is above zero, and within it an HGV count only when
    that count is above zero. *)
Theorem eu_capacity_only_with_spaces (src : Source)
  (response : option value) (f : EUParkingFacility) (c : Capacity) :
  In f (fetchAndParseEUData toString src response) ->
  capacity f = Some c ->
  PrimFloat.ltb PrimFloat.zero (totalSpaces c) = true
  /\ PrimFloat.eqb (totalSpaces c) PrimFloat.zero = false
  /\ forall h, hgvSpaces c = Some h ->
       PrimFloat.ltb PrimFloat.zero h = true
       /\ PrimFloat.eqb h PrimFloat.zero = false.
Proof.
  unfold fetchAndParseEUData. destruct response as [data|]; [|intros []].
  intros Hf. apply in_map_iff in Hf. destruct Hf as [record [<- _]].
  unfold parseRecord. cbn [capacity].
  destruct (JS.gt _ PrimFloat.zero) eqn:E; [|discriminate].
  intros [= <-]. cbn [totalSpaces hgvSpaces]. unfold JS.gt in E.
  split; [exact E | split; [apply positive_not_zero, E|]].
  intros h Hh. apply positive_or_undefined_some in Hh. exact Hh.
Qed.

Lemma fetchAndParse_provenance (src : Source) (response : option value)
  (f : EUParkingFacility) :
  In f (fetchAndParseEUData toString src response) ->
  response <> None
  /\ f_country f = country src
  /\ source f = source_name src
  /\ JS.startsWith (country src ++ "-") (id f) = true.
Proof.
  unfold fetchAndParseEUData. destruct response as [data|]; [|intros []].
  intros Hf. apply in_map_iff in Hf. destruct Hf as [record [<- _]].
  unfold parseRecord. cbn [f_country source id].
  repeat split; [discriminate|].
  rewrite <- append_assoc. apply startsWith_app.
Qed.

(** X13.  The handler of the EU route always answers with a list: every
    facility in it comes from a configured source whose fetch succeeded,
    carries the country and the name of that source and an id that starts
    with the country code and a dash; a source whose fetch failed
    contributes no facility; [totalFacilities] is the length of the
    list. *)
Theorem eu_facilities_come_from_fetched_sources (now : string)
  (fetch : Source -> option value) :
  exists body,
    GET toString now fetch = Json body
    /\ totalFacilities body = List.length (facilities body)
    /\ (forall f, In f (facilities body) ->
          exists src,
            In src EU_DATA_SOURCES /\ fetch src <> None
            /\ f_country f = country src /\ source f = source_name src
            /\ JS.startsWith (country src ++ "-") (id f) = true)
    /\ (forall src f, In src EU_DATA_SOURCES -> fetch src = None ->
          In f (facilities body) -> f_country f <> country src).
Proof.
  eexists. split; [reflexivity|]. cbn [totalFacilities facilities].
  split; [reflexivity|].
  assert (Hfrom : forall f,
    In f (List.concat
            (map (fun src => fetchAndParseEUData toString src (fetch src))
                 EU_DATA_SOURCES)) ->
    exists src,
      In src EU_DATA_SOURCES /\ fetch src <> None
      /\ f_country f = country src /\ source f = source_name src
      /\ JS.startsWith (country src ++ "-") (id f) = true).
  { intros f Hf. apply in_concat in Hf. destruct Hf as [l [Hl Hf]].
    apply in_map_iff in Hl. destruct Hl as [src [<- Hsrc]].
    exists src. split; [exact Hsrc|].
    apply (fetchAndParse_provenance src _ f Hf). }
  split; [exact Hfrom|].
  intros src f Hsrc Hnone Hf Hc.
  destruct (Hfrom f Hf) as [src' [Hsrc' [Hsome [Hc' _]]]].
  rewrite Hc' in Hc.
  assert (src' = src).
  { simpl in Hsrc, Hsrc'.
    destruct Hsrc as [<-|[<-|[]]], Hsrc' as [<-|[<-|[]]];
      try reflexivity; discriminate Hc. }
  subst src'. contradiction.
Qed.

End EuFacts.

(** ** The Zenodo route, further *)

Section CsvMore.

Import Zenodo CsvSpec Notions.

Lemma parseRow_without_column (cols : Columns) (i : nat) (line : string) :
  latIndex cols = None \/ lonIndex cols = None ->
  parseRow cols i line = Returned None.
Proof.
  intros H. unfold parseRow, rowCoordinates.
  destruct (negb (JS.truthy_string (JS.trim line))); [reflexivity|].
  destruct H as [-> | ->]; simpl; [reflexivity|].
  destruct (option_map _ (latIndex cols)); reflexivity.
Qed.

Lemma parseRows_without_column (cols : Columns) (lines : list string) :
  latIndex cols = None \/ lonIndex cols = None ->
  forall (i : nat) (facilities : list ZenodoFacility),
    parseRows cols i lines facilities = Returned facilities.
Proof.
  intros H. induction lines as [|line lines IH]; intros i facilities; simpl.
  - reflexivity.
  - rewrite (parseRow_without_column cols i line H). simpl. apply IH.
Qed.

(** X14.  When the header has no column for the latitude or none for the
    longitude, [parseCSV] returns the empty list whatever the rows are,
    and does not throw. *)
Theorem header_without_coordinates_gives_nothing
  (toLowerCase : string -> string) (csvText header : string)
  (rows : list string) :
  JS.split newline (JS.trim csvText) = header :: rows ->
  latIndex (parseHeader toLowerCase header) = None
  \/ lonIndex (parseHeader toLowerCase header) = None ->
  parseCSV toLowerCase csvText = Returned [].
Proof.
  intros Hsplit Hcols. unfold parseCSV. rewrite Hsplit.
  apply parseRows_without_column. exact Hcols.
Qed.

Lemma lacks_spec (fields : list string) (k : nat) :
  lacks fields (Some k) = true <-> nth_error fields k = None.
Proof.
  simpl. rewrite Nat.leb_le. symmetry. apply nth_error_None.
Qed.

Lemma fieldText_throws (fields : list string) (k : nat) :
  fieldText fields k = TypeError <-> lacks fields (Some k) = true.
Proof.
  rewrite lacks_spec. unfold fieldText.
  destruct (nth_error fields k); split; intros H;
    try reflexivity; discriminate H.
Qed.

Lemma column_throws (fields : list string) (column : option nat)
  (default : string) :
  (exists text,
     match column with
     | Some k => fieldText fields k
     | None => Returned default
     end = Returned text
     /\ lacks fields column = false)
  \/ (match column with
      | Some k => fieldText fields k
      | None => Returned default
      end = TypeError
      /\ lacks fields column = true).
Proof.
  destruct column as [k|]; [|left; exists default; split; reflexivity].
  destruct (fieldText fields k) as [text|] eqn:E.
  - left. exists text. split; [reflexivity|].
    destruct (lacks fields (Some k)) eqn:L; [|reflexivity].
    apply fieldText_throws in L. rewrite L in E. discriminate E.
  - right. split; [reflexivity | apply fieldText_throws, E].
Qed.

(** X15.  A row makes the parse throw exactly when it is not blank, both
    of its coordinates are numbers and it has no field for the country,
    the category or the name column of the header. *)
Theorem row_throws_iff_field_is_missing (cols : Columns) (i : nat)
  (line : string) :
  parseRow cols i line = TypeError
  <-> (JS.truthy_string (JS.trim line) = true
       /\ unparseable cols line = false
       /\ missingField cols (fieldsOf line) = true).
Proof.
  unfold parseRow, unparseable, missingField, fieldsOf.
  destruct (JS.truthy_string (JS.trim line)); simpl negb; cbv iota;
    [|split; [discriminate | intros [H _]; discriminate H]].
  set (fields := splitFields (JS.trim line) EmptyString false []).
  destruct (rowCoordinates cols fields) as [lat lon]. cbn [fst snd].
  unfold invalidCoordinates.
  destruct lat as [a|], lon as [b|];
    try (split; [discriminate | intros [_ [H _]]; discriminate H]).
  destruct (PrimFloat.is_nan a || PrimFloat.is_nan b); simpl andb;
    [split; [discriminate | intros [_ [H _]]; discriminate H]|].
  destruct (column_throws fields (countryIndex cols) "Unknown")
    as [[country [-> ->]]|[-> ->]]; cbn [bind];
    [|split; [intros _; repeat split | reflexivity]].
  destruct (column_throws fields (categoryIndex cols) "parking")
    as [[category [-> ->]]|[-> ->]]; cbn [bind];
    [|split; [intros _; repeat split | reflexivity]].
  destruct (column_throws fields (nameIndex cols)
              (country ++ "-" ++ JS.string_of_nat i))
    as [[name [-> ->]]|[-> ->]]; cbn [bind];
    [split; [discriminate | intros [_ [_ H]]; discriminate H]
    |split; [intros _; repeat split | reflexivity]].
Qed.

Lemma parseRows_throws_at (cols : Columns) (before : list string)
  (line : string) (after : list string) :
  forall (i : nat) (facilities : list ZenodoFacility),
    parseRow cols (i + List.length before) line = TypeError ->
    parseRows cols i (before ++ line :: after) facilities = TypeError.
Proof.
  induction before as [|b before IH]; intros i facilities H; simpl in *.
  - rewrite Nat.add_0_r in H. rewrite H. reflexivity.
  - destruct (parseRow cols i b) as [[f|]|]; simpl; try reflexivity;
      apply IH; rewrite Nat.add_succ_comm; exact H.
Qed.

Lemma parseRows_throws_inv (cols : Columns) (lines : list string) :
  forall (i : nat) (facilities : list ZenodoFacility),
    parseRows cols i lines facilities = TypeError ->
    exists before line after,
      lines = before ++ line :: after
      /\ parseRow cols (i + List.length before) line = TypeError.
Proof.
  induction lines as [|l lines IH]; intros i facilities; simpl;
    [discriminate|].
  destruct (parseRow cols i l) as [[f|]|] eqn:E; simpl.
  - intros H. destruct (IH _ _ H) as [before [line [after [-> Hrow]]]].
    exists (l :: before), line, after. split; [reflexivity|].
    simpl. rewrite <- Nat.add_succ_comm. exact Hrow.
  - intros H. destruct (IH _ _ H) as [before [line [after [-> Hrow]]]].
    exists (l :: before), line, after. split; [reflexivity|].
    simpl. rewrite <- Nat.add_succ_comm. exact Hrow.
  - intros _. exists [], l, lines. split; [reflexivity|].
    simpl. rewrite Nat.add_0_r. exact E.
Qed.

(** X16.  The parse is all or nothing: [parseCSV] throws exactly when
    some data row throws, wherever that row stands, so one such row loses
    the facilities of all the others. *)
Theorem parse_throws_iff_some_row_throws
  (toLowerCase : string -> string) (csvText : string) :
  parseCSV toLowerCase csvText = TypeError
  <-> exists header before line after,
        JS.split newline (JS.trim csvText)
        = header :: before ++ line :: after
        /\ parseRow (parseHeader toLowerCase header)
             (1 + List.length before) line = TypeError.
Proof.
  unfold parseCSV. split.
  - destruct (JS.split newline (JS.trim csvText)) as [|header rows];
      [discriminate|].
    intros H. apply parseRows_throws_inv in H.
    destruct H as [before [line [after [-> Hrow]]]].
    exists header, before, line, after. split; [reflexivity | exact Hrow].
  - intros [header [before [line [after [-> Hrow]]]]].
    apply parseRows_throws_at. exact Hrow.
Qed.

End CsvMore.

(** ** The facilities of the CSV *)

Section CsvFacilities.

Import Zenodo CsvSpec Notions.

Lemma string_of_nat_inj (n m : nat) :
  JS.string_of_nat n = JS.string_of_nat m -> n = m.
Proof.
  unfold JS.string_of_nat. intros H.
  assert (Hnil : forall k, Nat.to_uint k <> Decimal.Nil).
  { intros k. rewrite <- (DecimalNat.Unsigned.of_to k) at 1.
    rewrite DecimalNat.Unsigned.to_of. apply DecimalFacts.unorm_nonnil. }
  apply DecimalNat.Unsigned.to_uint_inj.
  pose proof (NilZero.usu _ (Hnil n)) as Hn.
  pose proof (NilZero.usu _ (Hnil m)) as Hm.
  rewrite H in Hn. rewrite Hn in Hm. injection Hm as Hm. exact Hm.
Qed.

Lemma digits_have_no_dash (d : Decimal.uint) :
  hasChar dash (NilEmpty.string_of_uint d) = false.
Proof. induction d; simpl; [reflexivity | exact IHd ..]. Qed.

Lemma string_of_nat_no_dash (n : nat) :
  hasChar dash (JS.string_of_nat n) = false.
Proof.
  unfold JS.string_of_nat, NilZero.string_of_uint.
  destruct (Nat.to_uint n) eqn:E; try (rewrite <- E; clear E);
    try apply digits_have_no_dash.
  reflexivity.
Qed.

Lemma hasChar_app_dash (a d : string) :
  hasChar dash (a ++ String dash d) = true.
Proof.
  induction a as [|c a IH]; simpl; [reflexivity|].
  rewrite IH. apply orb_true_r.
Qed.

Lemma afterLastDash_app (a d : string) :
  hasChar dash d = false -> afterLastDash (a ++ String dash d) = d.
Proof.
  intros Hd. induction a as [|c a IH]; simpl.
  - rewrite Hd. reflexivity.
  - rewrite hasChar_app_dash. exact IH.
Qed.

(** The shape of a facility that a row yields. *)
Lemma parseRow_some (cols : Columns) (i : nat) (line : string)
  (f : ZenodoFacility) :
  parseRow cols i line = Returned (Some f) ->
  exists country category name a b,
    f = mkFacility
          ("zenodo-" ++ country ++ "-" ++ JS.string_of_nat i)
          (if JS.truthy_string name then name
           else "Parking " ++ JS.string_of_nat i)
          category (mkLocation a b) country
          (match option_map (fieldNumber (fieldsOf line)) (areaIndex cols)
           with
           | Some x => if JS.truthy_number x then Some x else None
           | None => None
           end)
          "Zenodo (Fraunhofer ISI)".
Proof.
  unfold parseRow, fieldsOf.
  destruct (negb (JS.truthy_string (JS.trim line))); [discriminate|].
  destruct (rowCoordinates cols
              (splitFields (JS.trim line) EmptyString false []))
    as [[a|] [b|]]; try discriminate.
  destruct (PrimFloat.is_nan a || PrimFloat.is_nan b); [discriminate|].
  destruct (match countryIndex cols with
            | Some k => fieldText _ k
            | None => Returned "Unknown"
            end) as [country|]; [|discriminate].
  destruct (match categoryIndex cols with
            | Some k => fieldText _ k
            | None => Returned "parking"
            end) as [category|]; [|discriminate].
  cbn [bind].
  destruct (match nameIndex cols with
            | Some k => fieldText _ k
            | None => _
            end) as [name|]; [|discriminate].
  cbn [bind]. intros [= <-].
  exists country, category, name, a, b. reflexivity.
Qed.

Lemma parseRow_id (cols : Columns) (i : nat) (line : string)
  (f : ZenodoFacility) :
  parseRow cols i line = Returned (Some f) ->
  afterLastDash (id f) = JS.string_of_nat i.
Proof.
  intros H. apply parseRow_some in H.
  destruct H as [country [category [name [a [b ->]]]]]. cbn [id].
  change ("zenodo-" ++ country ++ "-" ++ JS.string_of_nat i)%string
    with (("zenodo-" ++ country) ++ String dash (JS.string_of_nat i))%string.
  apply afterLastDash_app. apply string_of_nat_no_dash.
Qed.

Lemma parseRows_ids (cols : Columns) (lines : list string) :
  forall (i : nat) (facilities result : list ZenodoFacility),
    NoDup (map id facilities) ->
    Forall (fun f => exists n, n < i
                     /\ afterLastDash (id f) = JS.string_of_nat n)
           facilities ->
    parseRows cols i lines facilities = Returned result ->
    NoDup (map id result).
Proof.
  induction lines as [|line lines IH];
    intros i facilities result Hnd Hlt; simpl.
  - intros [= <-]. exact Hnd.
  - destruct (parseRow cols i line) as [[f|]|] eqn:E; cbn [bind];
      [| |discriminate].
    + apply IH.
      * rewrite map_app. apply NoDup_app; [exact Hnd | |].
        -- constructor; [intros [] | constructor].
        -- intros x Hx [<-|[]]. apply in_map_iff in Hx.
           destruct Hx as [f' [Hid Hf']].
           rewrite Forall_forall in Hlt.
           destruct (Hlt f' Hf') as [n [Hn Hrow]].
           rewrite Hid, (parseRow_id _ _ _ _ E) in Hrow.
           apply string_of_nat_inj in Hrow. lia.
      * apply Forall_app. split.
        -- apply Forall_forall. intros f' Hf'. rewrite Forall_forall in Hlt.
           destruct (Hlt f' Hf') as [n [Hn Hrow]].
           exists n. split; [lia | exact Hrow].
        -- constructor; [|constructor].
           exists i. split; [lia | apply (parseRow_id _ _ _ _ E)].
    + apply IH; [exact Hnd|].
      apply Forall_forall. intros f' Hf'. rewrite Forall_forall in Hlt.
      destruct (Hlt f' Hf') as [n [Hn Hrow]].
      exists n. split; [lia | exact Hrow].
Qed.

(** X17.  The ids of the facilities that [parseCSV] returns are pairwise
    different, whatever the country fields hold: each id ends with the
    index of its row after its last dash. *)
Theorem csv_ids_are_unique (toLowerCase : string -> string)
  (csvText : string) (result : list ZenodoFacility) :
  parseCSV toLowerCase csvText = Returned result ->
  NoDup (map id result).
Proof.
  unfold parseCSV.
  destruct (JS.split newline (JS.trim csvText)) as [|header rows].
  - intros [= <-]. constructor.
  - apply parseRows_ids; constructor.
Qed.

Lemma parseRows_length (cols : Columns) (lines : list string) :
  forall (i : nat) (facilities result : list ZenodoFacility),
    parseRows cols i lines facilities = Returned result ->
    List.length result <= List.length facilities + List.length lines.
Proof.
  induction lines as [|line lines IH]; intros i facilities result; simpl.
  - intros [= <-]. lia.
  - destruct (parseRow cols i line) as [[f|]|]; cbn [bind];
      [| |discriminate]; intros H; apply IH in H.
    + rewrite length_app in H. simpl in H. lia.
    + lia.
Qed.

Lemma parseRows_all (P : ZenodoFacility -> Prop) (cols : Columns)
  (lines : list string) :
  (forall i line f, parseRow cols i line = Returned (Some f) -> P f) ->
  forall (i : nat) (facilities result : list ZenodoFacility),
    Forall P facilities ->
    parseRows cols i lines facilities = Returned result ->
    Forall P result.
Proof.
  intros HP. induction lines as [|line lines IH];
    intros i facilities result Hf; simpl.
  - intros [= <-]. exact Hf.
  - destruct (parseRow cols i line) as [[f|]|] eqn:E; cbn [bind];
      [| apply IH; exact Hf | discriminate].
    apply IH. apply Forall_app. split; [exact Hf|].
    constructor; [apply (HP _ _ _ E) | constructor].
Qed.

Lemma split_not_empty (sep : ascii) (s : string) : JS.split sep s <> [].
Proof.
  destruct s as [|c r]; simpl; [discriminate|].
  destruct (Ascii.eqb c sep); [discriminate|].
  destruct (JS.split sep r); discriminate.
Qed.

(** X18.  Every facility that [parseCSV] returns has a name and an id
    that are not empty and an area that, when present, is a number other
    than 0 and NaN; there are at most as many facilities as lines after
    the header. *)
Theorem csv_facilities_are_named (toLowerCase : string -> string)
  (csvText : string) (result : list ZenodoFacility) :
  parseCSV toLowerCase csvText = Returned result ->
  Forall (fun f =>
            JS.truthy_string (name f) = true
            /\ JS.truthy_string (id f) = true
            /\ forall x, area f = Some x -> JS.truthy_number x = true)
         result
  /\ S (List.length result)
     <= List.length (JS.split newline (JS.trim csvText)).
Proof.
  unfold parseCSV.
  destruct (JS.split newline (JS.trim csvText)) as [|header rows] eqn:Es;
    [exfalso; apply (split_not_empty _ _ Es)|].
  intros H. split.
  - revert H. apply parseRows_all; [|constructor].
    intros i line f Hrow. apply parseRow_some in Hrow.
    destruct Hrow as [country [category [name0 [a [b ->]]]]].
    cbn [name id area]. split; [|split; [reflexivity|]].
    + destruct (JS.truthy_string name0) eqn:T; [exact T | reflexivity].
    + intros x.
      destruct (option_map _ _) as [y|]; [|discriminate].
      destruct (JS.truthy_number y) eqn:T; [|discriminate].
      intros [= <-]. exact T.
  - apply parseRows_length in H. simpl in *. lia.
Qed.

End CsvFacilities.

(** ** The splitting of a row *)

Section SplitFacts.

Import Zenodo Notions.

Lemma append_empty (s : string) : (s ++ EmptyString)%string = s.
Proof. induction s as [|c s IH]; simpl; [|rewrite IH]; reflexivity. Qed.

Lemma append_char (a : string) (c : ascii) (w : string) :
  ((a ++ String c EmptyString) ++ w)%string = (a ++ String c w)%string.
Proof.
  induction a as [|x a IH]; simpl; [reflexivity|]. rewrite IH. reflexivity.
Qed.

Lemma joinFirst_empty (sep : ascii) (s : string) :
  joinFirst EmptyString (JS.split sep s) = JS.split sep s.
Proof.
  destruct (JS.split sep s) eqn:E; [|reflexivity].
  exfalso. apply (split_not_empty _ _ E).
Qed.

Lemma splitFields_unquoted (line : string) :
  hasChar JS.quote line = false ->
  forall (currentField : string) (fields : list string),
    splitFields line currentField false fields
    = fields
      ++ map JS.trim (joinFirst currentField (JS.split semicolon line)).
Proof.
  induction line as [|c line IH]; intros Hq currentField fields.
  - simpl. rewrite append_empty. reflexivity.
  - simpl in Hq. apply orb_false_iff in Hq. destruct Hq as [Hc Hq].
    cbn [splitFields]. rewrite Hc.
    destruct (Ascii.eqb c semicolon) eqn:Es; cbn [andb negb JS.split].
    + rewrite Es. rewrite (IH Hq), joinFirst_empty.
      cbn [joinFirst map]. rewrite append_empty, <- app_assoc.
      reflexivity.
    + rewrite Es. rewrite (IH Hq).
      destruct (JS.split semicolon line) as [|w ws] eqn:E;
        [exfalso; apply (split_not_empty _ _ E)|].
      cbn [joinFirst map]. rewrite append_char. reflexivity.
Qed.

(** X19.  On a row without quotes the loop that splits a row gives the
    same fields as splitting at every semicolon and trimming each part. *)
Theorem unquoted_row_splits_at_semicolons (line : string) :
  hasChar JS.quote line = false ->
  splitFields line EmptyString false []
  = map JS.trim (JS.split semicolon line).
Proof.
  intros Hq. rewrite (splitFields_unquoted line Hq).
  rewrite joinFirst_empty. reflexivity.
Qed.

End SplitFacts.

(** A record with 40 spaces, 25 of them for lorries. *)
Lemma eu_capacity_only_with_spaces_witness :
  let record :=
    Xml.Obj
      [("@_id", Xml.Str "P1");
       ("groupOfParkingSpaces",
        Xml.Arr [Samples.group "lorry" 25; Samples.group "car" 15])] in
  let f := EuParking.parseRecord Samples.idText Samples.austria record in
  EuParking.capacity f = Some (EuParking.mkCapacity 40 (Some 25%float))
  /\ PrimFloat.ltb PrimFloat.zero 40 = true.
Proof.
  intros record f. split; [reflexivity|].
  assert (Hin : In f (EuParking.fetchAndParseEUData Samples.idText
                        Samples.austria (Some (Samples.tableOf [record]))))
    by (left; reflexivity).
  destruct (eu_capacity_only_with_spaces Samples.idText Samples.austria
              (Some (Samples.tableOf [record])) f
              (EuParking.mkCapacity 40 (Some 25%float)) Hin eq_refl)
    as [H _].
  exact H.
Defined.

(** Austria answers with one record and the fetch for Germany fails. *)
Lemma eu_facilities_come_from_fetched_sources_witness :
  exists body,
    EuRoute.GET Samples.idText "2025-11-17T23:31:00Z"
      (fun src =>
         if String.eqb (EuParking.country src) "AT"
         then Some (Samples.tableOf [Samples.record_NL_12_421])
         else None)
    = EuRoute.Json body
    /\ map EuParking.id (EuRoute.facilities body) = ["AT-NL-12_421"]
    /\ EuRoute.totalFacilities body = List.length (EuRoute.facilities body).
Proof.
  destruct (eu_facilities_come_from_fetched_sources Samples.idText
              "2025-11-17T23:31:00Z"
              (fun src =>
                 if String.eqb (EuParking.country src) "AT"
                 then Some (Samples.tableOf [Samples.record_NL_12_421])
                 else None)) as [body [Hget [Htotal _]]].
  exists body. split; [exact Hget | split; [|exact Htotal]].
  injection Hget as <-. reflexivity.
Defined.

(** A table with a name and a country column only. *)
Lemma header_without_coordinates_gives_nothing_witness :
  Zenodo.parseCSV JS.asciiLowerCase
    (Samples.textOfLines ["name;country"; "Rasthof;DE"; "short"])
  = Zenodo.Returned [].
Proof.
  apply (header_without_coordinates_gives_nothing JS.asciiLowerCase
           (Samples.textOfLines ["name;country"; "Rasthof;DE"; "short"])
           "name;country" ["Rasthof;DE"; "short"]);
    [reflexivity | left; reflexivity].
Defined.

(** The row [52.25;4.75] under the header [lat;lon;country]. *)
Lemma row_throws_iff_field_is_missing_witness :
  Zenodo.parseRow (Zenodo.parseHeader JS.asciiLowerCase "lat;lon;country")
    1 "52.25;4.75"
  = Zenodo.TypeError.
Proof.
  apply (row_throws_iff_field_is_missing
           (Zenodo.parseHeader JS.asciiLowerCase "lat;lon;country") 1
           "52.25;4.75").
  repeat split; reflexivity.
Defined.

(** A good row, then the short row, then another good row. *)
Lemma parse_throws_iff_some_row_throws_witness :
  Zenodo.parseCSV JS.asciiLowerCase
    (Samples.textOfLines
       ["lat;lon;country"; "52.25;4.75;NL"; "52.25;4.75"; "48.5;16.25;AT"])
  = Zenodo.TypeError.
Proof.
  apply (parse_throws_iff_some_row_throws JS.asciiLowerCase
           (Samples.textOfLines
              ["lat;lon;country"; "52.25;4.75;NL"; "52.25;4.75";
               "48.5;16.25;AT"])).
  exists "lat;lon;country", ["52.25;4.75;NL"], "52.25;4.75",
    ["48.5;16.25;AT"].
  split; reflexivity.
Defined.

(** Two rows whose countries end in a dash and digits. *)
Lemma csv_ids_are_unique_witness :
  NoDup ["zenodo-A-1-1"; "zenodo-A-2"].
Proof.
  apply (csv_ids_are_unique JS.asciiLowerCase
           (Samples.textOfLines ["lat;lon;country"; "1;2;A-1"; "3;4;A"])
           [Zenodo.mkFacility "zenodo-A-1-1" "A-1-1" "parking"
              (Zenodo.mkLocation 1 2) "A-1" None "Zenodo (Fraunhofer ISI)";
            Zenodo.mkFacility "zenodo-A-2" "A-2" "parking"
              (Zenodo.mkLocation 3 4) "A" None "Zenodo (Fraunhofer ISI)"]).
  reflexivity.
Defined.

Lemma csv_facilities_are_named_witness :
  Zenodo.parseCSV JS.asciiLowerCase Samples.csv_with_bad_row
  = Zenodo.Returned
      [Zenodo.mkFacility "zenodo-Unknown-1" "Unknown-1" "parking"
         (Zenodo.mkLocation 52.25 4.75) "Unknown" None
         "Zenodo (Fraunhofer ISI)"]
  /\ 2 <= List.length
            (JS.split Zenodo.newline (JS.trim Samples.csv_with_bad_row)).
Proof.
  split; [reflexivity|].
  apply (csv_facilities_are_named JS.asciiLowerCase Samples.csv_with_bad_row
           [Zenodo.mkFacility "zenodo-Unknown-1" "Unknown-1" "parking"
              (Zenodo.mkLocation 52.25 4.75) "Unknown" None
              "Zenodo (Fraunhofer ISI)"]).
  reflexivity.
Defined.

Lemma unquoted_row_splits_at_semicolons_witness :
  Zenodo.splitFields "52.25; 4.75 ;NL" EmptyString false []
  = ["52.25"; "4.75"; "NL"].
Proof.
  rewrite (unquoted_row_splits_at_semicolons "52.25; 4.75 ;NL" eq_refl).
  reflexivity.
Defined.

(** ** The shapes that the XML parser gives *)

Section ShapeFacts.

Import Xml Ndw Notions.

(** X20.  A number or a text reads the same bare and as the text node of
    an element with attributes; but a bare number is no text, so a name
    that the parser read as a number is not used. *)
Theorem text_node_reads_like_bare_value
  (attributes : list (string * value)) :
  (forall s, JS.truthy_string s = true ->
     extractNumber (Some (Obj (("#text", Str s) :: attributes)))
     = extractNumber (Some (Str s))
     /\ extractText (Some (Obj (("#text", Str s) :: attributes)))
        = extractText (Some (Str s)))
  /\ (forall x, JS.truthy_number x = true ->
        extractNumber (Some (Obj (("#text", Num x) :: attributes)))
        = extractNumber (Some (Num x))
        /\ extractText (Some (Obj (("#text", Num x) :: attributes)))
           = Some (Num x)
        /\ extractText (Some (Num x)) = None
        /\ forall record id,
             get "@_id" record = Some id ->
             truthy id = true ->
             oget "value" (oget "values" (get "parkingName" record))
             = Some (Num x) ->
             name (parseRecord record) = id).
Proof.
  split.
  - intros s Hs. unfold extractNumber, extractText. simpl. rewrite Hs.
    simpl. rewrite Hs. split; reflexivity.
  - intros x Hx. split; [|split; [|split]].
    + unfold extractNumber, extractText. simpl. rewrite Hx. simpl.
      rewrite Hx. unfold JS.truthy_number in Hx.
      destruct (PrimFloat.is_zero x); [discriminate Hx | reflexivity].
    + unfold extractText. simpl. rewrite Hx. reflexivity.
    + unfold extractText. simpl. rewrite Hx. reflexivity.
    + intros record id Hid Ht Hname. unfold parseRecord. cbn [name].
      rewrite Hname, Hid. unfold extractText. simpl. rewrite Hx. simpl.
      rewrite Ht. reflexivity.
Qed.

End ShapeFacts.

(** The name 4711 of a record with the id NL-5 is read as a number, and
    the facility is named NL-5. *)
Lemma text_node_reads_like_bare_value_witness :
  Ndw.name
    (Ndw.parseRecord
       (Xml.Obj
          [("@_id", Xml.Str "NL-5");
           ("parkingName",
            Xml.Obj [("values", Xml.Obj [("value", Xml.Num 4711)])])]))
  = Xml.Str "NL-5".
Proof.
  destruct (text_node_reads_like_bare_value []) as [_ H].
  destruct (H 4711%float eq_refl) as [_ [_ [_ Hname]]].
  apply Hname; reflexivity.
Defined.
